(** * Role-hierarchy authorization of the admin API

    A shallow embedding of the admin middleware
    ([src/core/middleware/adminAuth.ts]), of the role-change validation
    chain ([src/core/middleware/validation.ts]), of the admin routes
    ([src/routes/admin/index.ts]) and of [AdminController.updateUser]
    ([src/controllers/adminController.ts]).

    An Express middleware either calls [next()], sends a response, or lets
    an exception escape; it is embedded as a function from the request (and
    the connection pool, when it queries) to an [Outcome]. *)

From Stdlib Require Import ZArith String Ascii List Bool Lia.
Import ListNotations.

Local Open Scope string_scope.
Local Open Scope Z_scope.

(** ** JavaScript values that reach the middleware *)

(** The values a JSON body, a route parameter, a query field or [parseInt]
    can produce. A number is a double: [JNum n] is the double nearest to
    the integer [n] (the integer itself up to 2^53), [JFrac printed] is a
    number with a fractional part, given by the text the language prints
    for it (the code reads such a number only through that text), and
    [JNaN] is not-a-number. *)
Inductive JsValue : Type :=
  | JUndefined
  | JNull
  | JNaN
  | JBool (b : bool)
  | JNum (n : Z)
  | JStr (s : string)
  | JFrac (printed : string).

(** ** Integers as doubles *)

(** The integer that stands for [Infinity]: the first magnitude no double
    reaches. It compares with every number the code can meet as
    [Infinity] does. *)
Definition infinity : Z := 2 ^ 1024.

(** The double nearest to a non-negative integer, ties to the even
    significand of 53 bits. *)
Definition roundMagnitude (m : Z) : Z :=
  let bits := Z.log2 m + 1 in
  if bits <=? 53 then m
  else
    let e := bits - 53 in
    let q := m / 2 ^ e in
    let r := m mod 2 ^ e in
    let half := 2 ^ (e - 1) in
    let q' :=
      if (half <? r) || ((r =? half) && Z.odd q) then q + 1 else q in
    Z.min (q' * 2 ^ e) infinity.

Definition roundDouble (n : Z) : Z := Z.sgn n * roundMagnitude (Z.abs n).

(** The largest power of ten not above [d], for [d] of at most [fuel]
    digits. *)
Fixpoint topDecade (fuel : nat) (p d : Z) : Z :=
  match fuel with
  | O => p
  | S f => if 10 * p <=? d then topDecade f (10 * p) d else p
  end.

(** The first digit of the text printed for the double [d] >= 10^21: the
    shortest digits that read back as [d]. A single digit is printed when
    a multiple of the decade by one digit rounds to [d]; otherwise the
    digits start as those of [d]. *)
Definition leadingDigit (d : Z) : Z :=
  let p := topDecade 400 1 d in
  let m := d / p in
  if roundMagnitude (m * p) =? d then m
  else if roundMagnitude ((m + 1) * p) =? d
  then (if m + 1 =? 10 then 1 else m + 1)
  else m.

(** [parseInt] of a number without fractional part: its printed text is
    "Infinity", or its digits below 10^21, or one digit followed by a
    fraction and an exponent. *)
Definition parseIntNumber (n : Z) : option Z :=
  let d := roundDouble n in
  let a := Z.abs d in
  if infinity <=? a then None
  else if a <? 10 ^ 21 then Some d
  else Some (Z.sgn d * leadingDigit a).

Definition isStrWhiteSpaceChar (c : ascii) : bool :=
  let n := Z.of_N (N_of_ascii c) in
  ((9 <=? n) && (n <=? 13)) || (n =? 32).

Fixpoint trimStart (s : string) : string :=
  match s with
  | String c rest => if isStrWhiteSpaceChar c then trimStart rest else s
  | EmptyString => s
  end.

(** Value of [c] as a digit of the given radix (10 or 16), if it is one. *)
Definition digitValue (radix : Z) (c : ascii) : option Z :=
  let n := Z.of_N (N_of_ascii c) in
  let d :=
    if (48 <=? n) && (n <=? 57) then Some (n - 48)
    else if (97 <=? n) && (n <=? 102) then Some (n - 87)
    else if (65 <=? n) && (n <=? 70) then Some (n - 55)
    else None in
  match d with
  | Some v => if v <? radix then Some v else None
  | None => None
  end.

(** Longest prefix of digits; [acc] is [None] until a digit was read. *)
Fixpoint parseDigits (radix : Z) (s : string) (acc : option Z) : option Z :=
  match s with
  | EmptyString => acc
  | String c rest =>
      match digitValue radix c with
      | Some d => parseDigits radix rest (Some (match acc with Some a => a | None => 0 end * radix + d))
      | None => acc
      end
  end.

(** [parseInt(string)] with no radix argument: leading white space, a sign,
    a [0x] prefix, then the longest run of digits, read as a double;
    [None] is [NaN]. *)
Definition parseIntString (s : string) : option Z :=
  let s1 := trimStart s in
  let '(negative, s2) :=
    match s1 with
    | String "-" rest => (true, rest)
    | String "+" rest => (false, rest)
    | _ => (false, s1)
    end in
  let '(radix, s3) :=
    match s2 with
    | String "0" (String "x" rest) => (16, rest)
    | String "0" (String "X" rest) => (16, rest)
    | _ => (10, s2)
    end in
  match parseDigits radix s3 None with
  | Some v => Some (roundDouble (if negative then - v else v))
  | None => None
  end.

(** [parseInt(v)]: the argument is first turned into a string; a number
    is read back from its printed text, [undefined], [null], [NaN] and
    booleans print as words and give [NaN]. White space is the ASCII part
    of the language's list. *)
Definition parseInt (v : JsValue) : option Z :=
  match v with
  | JNum n => parseIntNumber n
  | JStr s => parseIntString s
  | JFrac printed => parseIntString printed
  | JUndefined | JNull | JNaN | JBool _ => None
  end.
Arguments parseInt : simpl never.

(** ** Requests, responses, outcomes *)

(** Modelled from the spec: the [UserRole] enum of [@models], which is not
    under src/. Levels 3, 4 and 5 are Admin, Super Admin and Owner. *)
Module UserRole.
Definition ADMIN : Z := 3.
Definition SUPER_ADMIN : Z := 4.
Definition OWNER : Z := 5.
End UserRole.

(** The members of [ErrorCodes] ([@utilities]) that the code names. *)
Inductive ErrorCodes : Type :=
  | AUTH_UNAUTHORIZED
  | VALD_MISSING_FIELDS
  | VALD_INVALID_ROLE
  | USER_NOT_FOUND
  | SRVR_DATABASE_ERROR.

(** [request.claims], attached by the token middleware. *)
Record Claims : Type := { claims_id : Z; claims_role : Z }.

(** The fields of [request.body] that the admin code reads. *)
Record Body : Type := {
  body_role : JsValue;
  accountStatus : JsValue;
  emailVerified : JsValue;
  phoneVerified : JsValue
}.

Record IJwtRequest : Type := {
  method : string;
  params_id : JsValue;
  claims : option Claims;
  body : Body;
  targetUserRole : option Z
}.

(** The user object [updateUser] returns on success. *)
Record UpdatedUser : Type := {
  uu_id : Z;
  uu_firstName : string;
  uu_lastName : string;
  uu_username : string;
  uu_email : string;
  uu_accountStatus : string;
  uu_emailVerified : bool;
  uu_phoneVerified : bool;
  uu_updatedAt : Z
}.

(** What was written to the response. *)
Inductive Reply : Type :=
  | sendError (status : Z) (message : string) (code : ErrorCodes)
  | validationFailed (errors : list (string * string))
  | sendSuccess (user : UpdatedUser) (message : string).

Inductive Outcome : Type :=
  | Next (request : IJwtRequest)
  | Respond (reply : Reply)
  | Raise.

Definition replyStatus (r : Reply) : option Z :=
  match r with
  | sendError status _ _ => Some status
  | validationFailed _ => Some 400
  | sendSuccess _ _ => None
  end.

(** ** The backing store *)

Record AccountRow : Type := {
  account_id : Z;
  firstname : string;
  lastname : string;
  username : string;
  email : string;
  phone : string;
  account_role : Z;
  email_verified : bool;
  phone_verified : bool;
  account_status : string;
  created_at : Z;
  updated_at : Z
}.

Record CredentialRow : Type := {
  credential_account_id : Z;
  salted_hash : string;
  salt : string
}.

(** The two tables, each a list of rows. *)
Record Db : Type := {
  Account : list AccountRow;
  Account_Credential : list CredentialRow
}.

(** A pool whose queries throw, or one that answers from [db]. *)
Inductive Pool : Type :=
  | PoolDown
  | PoolUp (db : Db).

Inductive QueryResult (A : Type) : Type :=
  | Rows (rows : list A)
  | QueryThrows.
Arguments Rows {A} rows.
Arguments QueryThrows {A}.

Definition hasId (id : Z) (row : AccountRow) : bool := account_id row =? id.

(** The table declarations are not under src/. [Account_ID] is taken to
    be of the store's [integer] type, the type of a serial key; a value
    outside its 32 bits is rejected when the query is bound, and the query
    throws. *)
Definition inIntegerColumn (id : Z) : bool :=
  (- 2 ^ 31 <=? id) && (id <? 2 ^ 31).

(** [SELECT Account_Role FROM Account WHERE Account_ID = $1] *)
Definition selectAccountRole (pool : Pool) (id : Z) : QueryResult Z :=
  match pool with
  | PoolDown => QueryThrows
  | PoolUp db =>
      if inIntegerColumn id
      then Rows (map account_role (filter (hasId id) (Account db)))
      else QueryThrows
  end.

(** ** The middleware of adminAuth.ts *)

Definition requireAdmin (request : IJwtRequest) : Outcome :=
  match claims request with
  | None => Respond (sendError 401 "Authentication required" AUTH_UNAUTHORIZED)
  | Some c =>
      let userRole := claims_role c in
      if userRole <? UserRole.ADMIN
      then Respond (sendError 403 "Admin access required" AUTH_UNAUTHORIZED)
      else Next request
  end.

Definition setTargetUserRole (request : IJwtRequest) (r : Z) : IJwtRequest :=
  {| method := method request;
     params_id := params_id request;
     claims := claims request;
     body := body request;
     targetUserRole := Some r |}.

(** [checkRoleHierarchy]: gate of the update, delete and password-reset
    routes. Reading [request.claims.role] when [claims] is absent throws
    before the [try] block. *)
Definition checkRoleHierarchy (request : IJwtRequest) (pool : Pool) : Outcome :=
  let targetUserId := parseInt (params_id request) in
  match claims request with
  | None => Raise
  | Some c =>
      let adminRole := claims_role c in
      let adminId := claims_id c in
      match targetUserId with
      | None =>
          Respond (sendError 400 "Invalid user ID" VALD_MISSING_FIELDS)
      | Some targetUserId =>
          if String.eqb (method request) "DELETE" && (targetUserId =? adminId)
          then Respond (sendError 400 "Cannot delete your own account"
                                  AUTH_UNAUTHORIZED)
          else
            match selectAccountRole pool targetUserId with
            | QueryThrows =>
                Respond (sendError 500 "Server error" SRVR_DATABASE_ERROR)
            | Rows [] =>
                Respond (sendError 404 "User not found" USER_NOT_FOUND)
            | Rows (targetRole :: _) =>
                if adminRole <=? targetRole
                then
                  let action :=
                    if String.eqb (method request) "DELETE"
                    then "delete" else "modify" in
                  Respond (sendError 403
                    ("Cannot " ++ action ++ " user with equal or higher role")
                    AUTH_UNAUTHORIZED)
                else Next (setTargetUserRole request targetRole)
            end
      end
  end.

(** [validateRoleCreation]: gate of the create route. *)
Definition validateRoleCreation (request : IJwtRequest) : Outcome :=
  match claims request with
  | None => Raise
  | Some c =>
      let adminRole := claims_role c in
      match parseInt (body_role (body request)) with
      | None =>
          Respond (sendError 400 "Invalid role. Must be between 1-5"
                             VALD_INVALID_ROLE)
      | Some newUserRole =>
          if (newUserRole <? 1) || (newUserRole >? 5)
          then Respond (sendError 400 "Invalid role. Must be between 1-5"
                                  VALD_INVALID_ROLE)
          else if newUserRole >? adminRole
          then Respond (sendError 403
                 "Cannot create user with higher role than your own"
                 AUTH_UNAUTHORIZED)
          else Next request
      end
  end.

(** [checkRoleChangeHierarchy]: gate of the role-change route. *)
Definition checkRoleChangeHierarchy (request : IJwtRequest) (pool : Pool)
  : Outcome :=
  let targetUserId := parseInt (params_id request) in
  match claims request with
  | None => Raise
  | Some c =>
      let adminRole := claims_role c in
      let adminId := claims_id c in
      let newRole := parseInt (body_role (body request)) in
      match targetUserId, newRole with
      | Some targetUserId, Some newRole =>
          if targetUserId =? adminId
          then Respond (sendError 400 "Cannot change your own role"
                                  AUTH_UNAUTHORIZED)
          else if newRole >? adminRole
          then Respond (sendError 403
                 "Cannot promote user to higher role than your own"
                 AUTH_UNAUTHORIZED)
          else
            match selectAccountRole pool targetUserId with
            | QueryThrows =>
                Respond (sendError 500
                  "Server error during authorization check"
                  SRVR_DATABASE_ERROR)
            | Rows [] =>
                Respond (sendError 404 "User not found" USER_NOT_FOUND)
            | Rows (currentTargetRole :: _) =>
                if currentTargetRole >=? adminRole
                then Respond (sendError 403
                       "Cannot change role of user with equal or higher role"
                       AUTH_UNAUTHORIZED)
                else if (adminRole =? 3) && (newRole >? 3)
                then Respond (sendError 403
                       "Admins can only assign roles up to admin level"
                       AUTH_UNAUTHORIZED)
                else Next request
            end
      | _, _ =>
          Respond (sendError 400 "Invalid user ID or role"
                             VALD_MISSING_FIELDS)
      end
  end.

(** [canModifyUser]: the stand-alone capability check. *)
Definition canModifyUser (modifierRole targetRole : Z) : bool :=
  if modifierRole =? UserRole.OWNER then true
  else modifierRole >? targetRole.

(** ** The role-change validation chain of validation.ts

    [express-validator] is a dependency, not code of this repository: its
    [notEmpty], [isInt] and [toInt] are embedded by what they do to the
    string form of a field ([undefined], [null] and [NaN] have the empty
    string form). *)

Definition fieldIsEmpty (v : JsValue) : bool :=
  match v with
  | JUndefined | JNull | JNaN => true
  | JStr s => String.eqb s ""
  | JFrac printed => String.eqb printed ""
  | JBool _ | JNum _ => false
  end.

Fixpoint allDigits (s : string) : bool :=
  match s with
  | EmptyString => true
  | String c rest =>
      match digitValue 10 c with
      | Some _ => allDigits rest
      | None => false
      end
  end.

(** The number a string gives when it matches [^[-+]?[0-9]+$]: its
    digits, read as a double. *)
Definition intOfString (s : string) : option Z :=
  let '(negative, ds) :=
    match s with
    | String "-" rest => (true, rest)
    | String "+" rest => (false, rest)
    | _ => (false, s)
    end in
  if allDigits ds
  then match parseDigits 10 ds None with
       | Some v => Some (roundDouble (if negative then - v else v))
       | None => None
       end
  else None.

(** A number without fractional part prints as an integer below 10^21,
    and with an exponent from there on. *)
Definition intOfNumber (n : Z) : option Z :=
  let d := roundDouble n in
  if Z.abs d <? 10 ^ 21 then Some d else None.

Definition fieldInt (v : JsValue) : option Z :=
  match v with
  | JNum n => intOfNumber n
  | JStr s => intOfString s
  | JFrac printed => intOfString printed
  | JUndefined | JNull | JNaN | JBool _ => None
  end.

(** [.isInt()] and [.isInt({ min, max })] *)
Definition isInt (v : JsValue) : bool :=
  match fieldInt v with Some _ => true | None => false end.

Definition isIntBetween (lo hi : Z) (v : JsValue) : bool :=
  match fieldInt v with
  | Some n => (lo <=? n) && (n <=? hi)
  | None => false
  end.

(** [.toInt()] *)
Definition toInt (v : JsValue) : JsValue :=
  match fieldInt v with Some n => JNum n | None => JNaN end.

Definition check (failed : bool) (field msg : string)
  : list (string * string) :=
  if failed then [(field, msg)] else [].

(** [validateAdminRoleChange], ending in [handleValidationErrors]. *)
Definition validateAdminRoleChange (request : IJwtRequest) : Outcome :=
  let id := params_id request in
  let role := body_role (body request) in
  let errors :=
    (check (fieldIsEmpty id) "id" "User ID is required"
     ++ check (negb (isInt id)) "id" "User ID must be an integer"
     ++ check (fieldIsEmpty role) "role" "Role is required"
     ++ check (negb (isIntBetween 1 5 role)) "role"
          "Role must be an integer between 1 and 5")%list in
  match errors with
  | [] =>
      Next {| method := method request;
              params_id := toInt id;
              claims := claims request;
              body := {| body_role := toInt role;
                         accountStatus := accountStatus (body request);
                         emailVerified := emailVerified (body request);
                         phoneVerified := phoneVerified (body request) |};
              targetUserRole := targetUserRole request |}
  | _ :: _ => Respond (validationFailed errors)
  end.

(** ** The gated routes of routes/admin/index.ts

    A route runs its handlers in order; a handler that does not call
    [next()] ends the request. The request is taken as the token
    middleware (not under src/) hands it on. *)

Definition andThen (o : Outcome) (k : IJwtRequest -> Outcome) : Outcome :=
  match o with
  | Next request => k request
  | Respond _ | Raise => o
  end.

(** [PUT /admin/users/:id/role], up to the controller. *)
Definition putUserRoleGate (request : IJwtRequest) (pool : Pool) : Outcome :=
  andThen (requireAdmin request) (fun r1 =>
  andThen (validateAdminRoleChange r1) (fun r2 =>
  checkRoleChangeHierarchy r2 pool)).

(** [PUT /admin/users/:id] and [DELETE /admin/users/:id], up to the
    controller. *)
Definition userGate (request : IJwtRequest) (pool : Pool) : Outcome :=
  andThen (requireAdmin request) (fun r1 => checkRoleHierarchy r1 pool).

(** ** The decisions of the specification

    The specification names the outcomes of the policy by reason codes; the
    code tells them apart by the message it sends. *)

Inductive Reason : Type :=
  | INVALID_ROLE
  | ROLE_TOO_HIGH
  | SELF_ACTION
  | INSUFFICIENT_HIERARCHY
  | PROMOTION_CEILING
  | TIER_CEILING.

Inductive Decision : Type :=
  | ALLOW
  | DENY (reason : Reason).

Definition reasonMessages : list (string * Reason) :=
  [ ("Invalid role. Must be between 1-5", INVALID_ROLE);
    ("Cannot create user with higher role than your own", ROLE_TOO_HIGH);
    ("Cannot delete your own account", SELF_ACTION);
    ("Cannot change your own role", SELF_ACTION);
    ("Cannot delete user with equal or higher role", INSUFFICIENT_HIERARCHY);
    ("Cannot modify user with equal or higher role", INSUFFICIENT_HIERARCHY);
    ("Cannot change role of user with equal or higher role",
     INSUFFICIENT_HIERARCHY);
    ("Cannot promote user to higher role than your own", PROMOTION_CEILING);
    ("Admins can only assign roles up to admin level", TIER_CEILING) ].

Fixpoint lookupReason (table : list (string * Reason)) (msg : string)
  : option Reason :=
  match table with
  | [] => None
  | (m, r) :: rest => if String.eqb m msg then Some r else lookupReason rest msg
  end.

(** The policy decision an outcome stands for, if it is one: [next()] is
    ALLOW, an error with a policy message is DENY with that reason. *)
Definition decision (o : Outcome) : option Decision :=
  match o with
  | Next _ => Some ALLOW
  | Respond (sendError _ msg _) =>
      match lookupReason reasonMessages msg with
      | Some r => Some (DENY r)
      | None => None
      end
  | Respond _ | Raise => None
  end.

(** The terminal NOT_FOUND of the gate. *)
Definition NOT_FOUND : Outcome :=
  Respond (sendError 404 "User not found" USER_NOT_FOUND).

(** ** AdminController.updateUser

    The controller builds an [UPDATE Account SET ... WHERE Account_ID = $n
    RETURNING *] statement clause by clause and runs it on the pool. The
    statement is kept as data (columns and expressions) and run by
    [runUpdate] over the rows of the table. *)

Inductive Column : Type :=
  | Account_ID
  | FirstName
  | LastName
  | Username
  | Email
  | Phone
  | Account_Role
  | Email_Verified
  | Phone_Verified
  | Account_Status
  | Created_At
  | Updated_At.

(** The right-hand side of a SET clause: the placeholder [$n] or [NOW()]. *)
Inductive SqlExpr : Type :=
  | Param (n : nat)
  | NOW.

Inductive UpdateResult : Type :=
  | Updated (db' : Db) (returning : list AccountRow)
  | UpdateThrows.

Definition isDefined (v : JsValue) : bool :=
  match v with JUndefined => false | _ => true end.

(** A number as a query value: [NaN] when [parseInt] gave none. *)
Definition numberValue (n : option Z) : JsValue :=
  match n with Some z => JNum z | None => JNaN end.

Definition userView (row : AccountRow) : UpdatedUser :=
  {| uu_id := account_id row;
     uu_firstName := firstname row;
     uu_lastName := lastname row;
     uu_username := username row;
     uu_email := email row;
     uu_accountStatus := account_status row;
     uu_emailVerified := email_verified row;
     uu_phoneVerified := phone_verified row;
     uu_updatedAt := updated_at row |}.

Section Store.

(** How the store reads a bound query value into a column of text,
    boolean or integer type; [None] when it rejects the value and the
    query throws. The driver and the table schema are not under src/. *)
Variable bindText : JsValue -> option string.
Variable bindBool : JsValue -> option bool.
Variable bindInt : JsValue -> option Z.

Section Statement.

Variable now : Z.
Variable values : list JsValue.

(** [$n] counts from 1. *)
Definition placeholder (n : nat) : option JsValue :=
  match n with
  | O => None
  | S k => nth_error values k
  end.

Definition bound {A : Type} (bind : JsValue -> option A) (e : SqlExpr)
  : option A :=
  match e with
  | Param n =>
      match placeholder n with
      | Some v => bind v
      | None => None
      end
  | NOW => None
  end.

Definition boundTime (e : SqlExpr) : option Z :=
  match e with
  | NOW => Some now
  | Param _ => bound bindInt e
  end.

(** One SET clause as a change of the row, when its value fits. *)
Definition setClause (clause : Column * SqlExpr)
  : option (AccountRow -> AccountRow) :=
  let '(col, e) := clause in
  match col with
  | Account_ID =>
      option_map (fun v r =>
        {| account_id := v; firstname := firstname r;
           lastname := lastname r; username := username r;
           email := email r; phone := phone r;
           account_role := account_role r;
           email_verified := email_verified r;
           phone_verified := phone_verified r;
           account_status := account_status r;
           created_at := created_at r; updated_at := updated_at r |})
        (bound bindInt e)
  | FirstName =>
      option_map (fun v r =>
        {| account_id := account_id r; firstname := v;
           lastname := lastname r; username := username r;
           email := email r; phone := phone r;
           account_role := account_role r;
           email_verified := email_verified r;
           phone_verified := phone_verified r;
           account_status := account_status r;
           created_at := created_at r; updated_at := updated_at r |})
        (bound bindText e)
  | LastName =>
      option_map (fun v r =>
        {| account_id := account_id r; firstname := firstname r;
           lastname := v; username := username r;
           email := email r; phone := phone r;
           account_role := account_role r;
           email_verified := email_verified r;
           phone_verified := phone_verified r;
           account_status := account_status r;
           created_at := created_at r; updated_at := updated_at r |})
        (bound bindText e)
  | Username =>
      option_map (fun v r =>
        {| account_id := account_id r; firstname := firstname r;
           lastname := lastname r; username := v;
           email := email r; phone := phone r;
           account_role := account_role r;
           email_verified := email_verified r;
           phone_verified := phone_verified r;
           account_status := account_status r;
           created_at := created_at r; updated_at := updated_at r |})
        (bound bindText e)
  | Email =>
      option_map (fun v r =>
        {| account_id := account_id r; firstname := firstname r;
           lastname := lastname r; username := username r;
           email := v; phone := phone r;
           account_role := account_role r;
           email_verified := email_verified r;
           phone_verified := phone_verified r;
           account_status := account_status r;
           created_at := created_at r; updated_at := updated_at r |})
        (bound bindText e)
  | Phone =>
      option_map (fun v r =>
        {| account_id := account_id r; firstname := firstname r;
           lastname := lastname r; username := username r;
           email := email r; phone := v;
           account_role := account_role r;
           email_verified := email_verified r;
           phone_verified := phone_verified r;
           account_status := account_status r;
           created_at := created_at r; updated_at := updated_at r |})
        (bound bindText e)
  | Account_Role =>
      option_map (fun v r =>
        {| account_id := account_id r; firstname := firstname r;
           lastname := lastname r; username := username r;
           email := email r; phone := phone r;
           account_role := v;
           email_verified := email_verified r;
           phone_verified := phone_verified r;
           account_status := account_status r;
           created_at := created_at r; updated_at := updated_at r |})
        (bound bindInt e)
  | Email_Verified =>
      option_map (fun v r =>
        {| account_id := account_id r; firstname := firstname r;
           lastname := lastname r; username := username r;
           email := email r; phone := phone r;
           account_role := account_role r;
           email_verified := v;
           phone_verified := phone_verified r;
           account_status := account_status r;
           created_at := created_at r; updated_at := updated_at r |})
        (bound bindBool e)
  | Phone_Verified =>
      option_map (fun v r =>
        {| account_id := account_id r; firstname := firstname r;
           lastname := lastname r; username := username r;
           email := email r; phone := phone r;
           account_role := account_role r;
           email_verified := email_verified r;
           phone_verified := v;
           account_status := account_status r;
           created_at := created_at r; updated_at := updated_at r |})
        (bound bindBool e)
  | Account_Status =>
      option_map (fun v r =>
        {| account_id := account_id r; firstname := firstname r;
           lastname := lastname r; username := username r;
           email := email r; phone := phone r;
           account_role := account_role r;
           email_verified := email_verified r;
           phone_verified := phone_verified r;
           account_status := v;
           created_at := created_at r; updated_at := updated_at r |})
        (bound bindText e)
  | Created_At =>
      option_map (fun v r =>
        {| account_id := account_id r; firstname := firstname r;
           lastname := lastname r; username := username r;
           email := email r; phone := phone r;
           account_role := account_role r;
           email_verified := email_verified r;
           phone_verified := phone_verified r;
           account_status := account_status r;
           created_at := v; updated_at := updated_at r |})
        (boundTime e)
  | Updated_At =>
      option_map (fun v r =>
        {| account_id := account_id r; firstname := firstname r;
           lastname := lastname r; username := username r;
           email := email r; phone := phone r;
           account_role := account_role r;
           email_verified := email_verified r;
           phone_verified := phone_verified r;
           account_status := account_status r;
           created_at := created_at r; updated_at := v |})
        (boundTime e)
  end.

(** The whole SET list, left to right. *)
Fixpoint setClauses (clauses : list (Column * SqlExpr))
  : option (AccountRow -> AccountRow) :=
  match clauses with
  | [] => Some (fun r => r)
  | clause :: rest =>
      match setClause clause, setClauses rest with
      | Some f, Some g => Some (fun r => g (f r))
      | _, _ => None
      end
  end.

(** [UPDATE Account SET updates WHERE Account_ID = $k RETURNING *]; an
    identifier that is not a number of the integer column is rejected. *)
Definition runUpdate (updates : list (Column * SqlExpr)) (k : nat)
  (pool : Pool) : UpdateResult :=
  match pool with
  | PoolDown => UpdateThrows
  | PoolUp db =>
      match setClauses updates, placeholder k with
      | Some f, Some (JNum id) =>
          if inIntegerColumn id
          then
            Updated
              {| Account :=
                   map (fun r => if hasId id r then f r else r) (Account db);
                 Account_Credential := Account_Credential db |}
              (map f (filter (hasId id) (Account db)))
          else UpdateThrows
      | _, _ => UpdateThrows
      end
  end.

End Statement.

(** The statement under construction: [updates], [values], [paramCount]. *)
Definition Builder : Type := (list (Column * SqlExpr) * list JsValue * nat).

(** [if (field !== undefined) { updates.push(...); values.push(field) }] *)
Definition pushIfDefined (col : Column) (field : JsValue) (b : Builder)
  : Builder :=
  let '(updates, values, paramCount) := b in
  if isDefined field
  then ((updates ++ [(col, Param paramCount)])%list,
        (values ++ [field])%list,
        S paramCount)
  else b.

(** [updateUser], run at time [now]: the reply and the pool it leaves. *)
Definition updateUser (request : IJwtRequest) (pool : Pool) (now : Z)
  : Reply * Pool :=
  let userId := parseInt (params_id request) in
  let b0 : Builder := ([], [], 1%nat) in
  let b1 := pushIfDefined Account_Status (accountStatus (body request)) b0 in
  let b2 := pushIfDefined Email_Verified (emailVerified (body request)) b1 in
  let b3 := pushIfDefined Phone_Verified (phoneVerified (body request)) b2 in
  let '(updates, values, paramCount) := b3 in
  if (length updates =? 0)%nat
  then (sendError 400 "No valid updates provided" VALD_MISSING_FIELDS, pool)
  else
    let updates := (updates ++ [(Updated_At, NOW)])%list in
    let values := (values ++ [numberValue userId])%list in
    match runUpdate now values updates paramCount pool with
    | Updated db' (row :: _) =>
        (sendSuccess (userView row) "User updated successfully", PoolUp db')
    | Updated db' [] =>
        (sendError 500 "Failed to update user" SRVR_DATABASE_ERROR,
         PoolUp db')
    | UpdateThrows =>
        (sendError 500 "Failed to update user" SRVR_DATABASE_ERROR, pool)
    end.

End Store.

(** ** The specification's rules, for comparison with the code *)

(** [canChangeRole] as the specification words it, rule by rule, first
    failing rule first. *)
Definition canChangeRole_spec
  (actingRole actingId targetId targetCurrentRole requestedNewRole : Z)
  : Decision :=
  if actingId =? targetId then DENY SELF_ACTION
  else if (requestedNewRole <? 1) || (requestedNewRole >? 5)
  then DENY INVALID_ROLE
  else if requestedNewRole >? actingRole then DENY PROMOTION_CEILING
  else if targetCurrentRole >=? actingRole then DENY INSUFFICIENT_HIERARCHY
  else if (actingRole =? 3) && (requestedNewRole >? 3) then DENY TIER_CEILING
  else ALLOW.

(** The status the code sends with each denial: 400 for the self-action and
    invalid-role replies, 403 for the hierarchy replies. *)
Definition denialStatus (r : Reason) : Z :=
  match r with
  | SELF_ACTION | INVALID_ROLE => 400
  | ROLE_TOO_HIGH | INSUFFICIENT_HIERARCHY
  | PROMOTION_CEILING | TIER_CEILING => 403
  end.

(** Two rows agree outside the columns [updateUser] may write. *)
Definition sameOutsideUpdate (r r' : AccountRow) : Prop :=
  account_id r' = account_id r
  /\ firstname r' = firstname r
  /\ lastname r' = lastname r
  /\ username r' = username r
  /\ email r' = email r
  /\ phone r' = phone r
  /\ account_role r' = account_role r
  /\ created_at r' = created_at r.

(** The columns [updateUser] names in its SET list. *)
Definition writtenByUpdate (col : Column) : bool :=
  match col with
  | Account_Status | Email_Verified | Phone_Verified | Updated_At => true
  | Account_ID | FirstName | LastName | Username | Email | Phone
  | Account_Role | Created_At => false
  end.

(** What [updateUser] may do to one row of [Account] when the target is
    [target]: keep it outside the written columns, and keep it whole when
    it is not the target's row. *)
Definition updateFrame (target : option Z) (r r' : AccountRow) : Prop :=
  sameOutsideUpdate r r' /\ (target <> Some (account_id r) -> r' = r).

(** The statement under construction names only written columns, and its
    next placeholder is the one after the values pushed so far. *)
Definition builderOk (b : Builder) : Prop :=
  let '(updates, values, paramCount) := b in
  Forall (fun clause => writtenByUpdate (fst clause) = true) updates
  /\ paramCount = S (length values).

(** ** Sample requests and a sample store *)

Definition sampleRow (id role : Z) (name : string) : AccountRow :=
  {| account_id := id; firstname := name; lastname := "Doe";
     username := name; email := name ++ "@example.org"; phone := "2065550100";
     account_role := role; email_verified := false; phone_verified := false;
     account_status := "active"; created_at := 0; updated_at := 0 |}.

Definition sampleDb : Db :=
  {| Account := [ sampleRow 1 5 "olga"; sampleRow 2 5 "omar";
                  sampleRow 3 4 "sam"; sampleRow 4 3 "ada";
                  sampleRow 5 3 "abe"; sampleRow 6 2 "mod";
                  sampleRow 7 1 "una" ];
     Account_Credential :=
       [ {| credential_account_id := 1; salted_hash := "h1"; salt := "s1" |};
         {| credential_account_id := 7; salted_hash := "h7"; salt := "s7" |} ]
  |}.

Definition samplePool : Pool := PoolUp sampleDb.

Definition emptyBody : Body :=
  {| body_role := JUndefined; accountStatus := JUndefined;
     emailVerified := JUndefined; phoneVerified := JUndefined |}.

Definition roleBody (role : JsValue) : Body :=
  {| body_role := role; accountStatus := JUndefined;
     emailVerified := JUndefined; phoneVerified := JUndefined |}.

(** A request by the principal [actor] of level [role] on [/users/:id]. *)
Definition sampleRequest (verb : string) (actor role : Z) (id : string)
  (b : Body) : IJwtRequest :=
  {| method := verb; params_id := JStr id;
     claims := Some {| claims_id := actor; claims_role := role |};
     body := b; targetUserRole := None |}.

Definition acceptText (v : JsValue) : option string :=
  match v with JStr s => Some s | _ => None end.
Definition acceptBool (v : JsValue) : option bool :=
  match v with JBool b => Some b | _ => None end.
Definition acceptInt (v : JsValue) : option Z :=
  match v with JNum n => Some n | _ => None end.

(** ** The remaining middleware of adminAuth.ts *)

Definition requireSuperAdmin (request : IJwtRequest) : Outcome :=
  match claims request with
  | None => Respond (sendError 401 "Authentication required" AUTH_UNAUTHORIZED)
  | Some c =>
      let userRole := claims_role c in
      if userRole <? UserRole.SUPER_ADMIN
      then Respond (sendError 403 "Super Admin access required"
                              AUTH_UNAUTHORIZED)
      else Next request
  end.

Definition requireOwner (request : IJwtRequest) : Outcome :=
  match claims request with
  | None => Respond (sendError 401 "Authentication required" AUTH_UNAUTHORIZED)
  | Some c =>
      let userRole := claims_role c in
      if negb (userRole =? UserRole.OWNER)
      then Respond (sendError 403 "Owner access required" AUTH_UNAUTHORIZED)
      else Next request
  end.

(** [validateRoleAssignment]: the stricter check for assigning a role; a
    body without [role] skips it. *)
Definition validateRoleAssignment (request : IJwtRequest) : Outcome :=
  match claims request with
  | None => Raise
  | Some c =>
      let adminRole := claims_role c in
      let assignedRole := parseInt (body_role (body request)) in
      if negb (isDefined (body_role (body request)))
      then Next request
      else
        match assignedRole with
        | None =>
            Respond (sendError 400 "Invalid role. Must be between 1-5"
                               VALD_INVALID_ROLE)
        | Some assignedRole =>
            if (assignedRole <? 1) || (assignedRole >? 5)
            then Respond (sendError 400 "Invalid role. Must be between 1-5"
                                    VALD_INVALID_ROLE)
            else if assignedRole >=? adminRole
            then Respond (sendError 403
                   "Can only assign roles lower than your own"
                   AUTH_UNAUTHORIZED)
            else Next request
        end
  end.

(** ** The other writing controllers of adminController.ts *)

(** What a controller wrote to the response: [sendError], or [sendSuccess]
    with its data. *)
Inductive Sent (A : Type) : Type :=
  | sentError (status : Z) (message : string) (code : ErrorCodes)
  | sentSuccess (data : A) (message : string).
Arguments sentError {A} status message code.
Arguments sentSuccess {A} data message.

(** A statement that writes: the store it leaves and the rows it returns,
    or an exception. *)
Inductive WriteResult (A : Type) : Type :=
  | Written (db' : Db) (returning : list A)
  | WriteThrows.
Arguments Written {A} db' returning.
Arguments WriteThrows {A}.

(** The row after [SET Account_Status = 'deleted', Updated_At = NOW()]. *)
Definition markDeleted (now : Z) (r : AccountRow) : AccountRow :=
  {| account_id := account_id r; firstname := firstname r;
     lastname := lastname r; username := username r;
     email := email r; phone := phone r;
     account_role := account_role r;
     email_verified := email_verified r;
     phone_verified := phone_verified r;
     account_status := "deleted";
     created_at := created_at r; updated_at := now |}.

(** [WHERE Account_ID = $1 AND Account_Status != 'deleted'] *)
Definition notYetDeleted (id : Z) (r : AccountRow) : bool :=
  hasId id r && negb (String.eqb (account_status r) "deleted").

(** [UPDATE Account SET Account_Status = 'deleted', Updated_At = NOW()
    WHERE Account_ID = $1 AND Account_Status != 'deleted'
    RETURNING Account_ID]; a value that is not a number of the integer
    column is rejected. *)
Definition runSoftDelete (now : Z) (value : JsValue) (pool : Pool)
  : WriteResult Z :=
  match pool, value with
  | PoolUp db, JNum id =>
      if inIntegerColumn id
      then
        Written
          {| Account :=
               map (fun r => if notYetDeleted id r
                             then markDeleted now r else r)
                   (Account db);
             Account_Credential := Account_Credential db |}
          (map account_id (filter (notYetDeleted id) (Account db)))
      else WriteThrows
  | _, _ => WriteThrows
  end.

(** [deleteUser], run at time [now]. *)
Definition deleteUser (request : IJwtRequest) (pool : Pool) (now : Z)
  : Sent unit * Pool :=
  let userId := parseInt (params_id request) in
  match runSoftDelete now (numberValue userId) pool with
  | Written db' [] =>
      (sentError 404 "User not found or already deleted" USER_NOT_FOUND,
       PoolUp db')
  | Written db' (_ :: _) =>
      (sentSuccess tt "User deleted successfully", PoolUp db')
  | WriteThrows =>
      (sentError 500 "Failed to delete user" SRVR_DATABASE_ERROR, pool)
  end.

(** [SELECT * FROM Account WHERE Account_ID = $1] *)
Definition selectAccount (pool : Pool) (value : JsValue)
  : QueryResult AccountRow :=
  match pool, value with
  | PoolUp db, JNum id =>
      if inIntegerColumn id then Rows (filter (hasId id) (Account db))
      else QueryThrows
  | _, _ => QueryThrows
  end.

(** The data of a successful role change. *)
Record RoleChange : Type := {
  rc_user : AccountRow;
  rc_role : string;
  rc_roleLevel : JsValue;
  rc_previousRole : string;
  rc_previousRoleLevel : Z
}.

(** How one route ended: a reply of its middleware, a reply of its
    controller, or an exception nobody caught. *)
Inductive RouteReply (A : Type) : Type :=
  | byMiddleware (reply : Reply)
  | byController (reply : A)
  | unhandled.
Arguments byMiddleware {A} reply.
Arguments byController {A} reply.
Arguments unhandled {A}.

(** [DELETE /admin/users/:id] *)
Definition deleteUserRoute (request : IJwtRequest) (pool : Pool) (now : Z)
  : RouteReply (Sent unit) * Pool :=
  match userGate request pool with
  | Next r =>
      let '(reply, pool') := deleteUser r pool now in
      (byController reply, pool')
  | Respond reply => (byMiddleware reply, pool)
  | Raise => (unhandled, pool)
  end.

Section Controllers.

Variable bindText : JsValue -> option string.
Variable bindBool : JsValue -> option bool.
Variable bindInt : JsValue -> option Z.

(** The [RoleName] table of [@models], which is not under src/: the name
    it gives for a level. *)
Variable RoleName : JsValue -> string.

(** [changeUserRole], run at time [now]. *)
Definition changeUserRole (request : IJwtRequest) (pool : Pool) (now : Z)
  : Sent RoleChange * Pool :=
  let userId := parseInt (params_id request) in
  let newRole := parseInt (body_role (body request)) in
  match selectAccount pool (numberValue userId) with
  | QueryThrows =>
      (sentError 500 "Failed to change user role" SRVR_DATABASE_ERROR, pool)
  | Rows [] => (sentError 404 "User not found" USER_NOT_FOUND, pool)
  | Rows (currentUser :: _) =>
      match runUpdate bindText bindBool bindInt now
              [numberValue newRole; numberValue userId]
              [(Account_Role, Param 1); (Updated_At, NOW)] 2 pool with
      | UpdateThrows =>
          (sentError 500 "Failed to change user role" SRVR_DATABASE_ERROR,
           pool)
      | Updated db' [] =>
          (sentError 404 "User not found" USER_NOT_FOUND, PoolUp db')
      | Updated db' (updatedUser :: _) =>
          (sentSuccess
             {| rc_user := updatedUser;
                rc_role := RoleName (numberValue newRole);
                rc_roleLevel := numberValue newRole;
                rc_previousRole := RoleName (JNum (account_role currentUser));
                rc_previousRoleLevel := account_role currentUser |}
             ("User role changed from "
                ++ RoleName (JNum (account_role currentUser))
                ++ " to " ++ RoleName (numberValue newRole)),
           PoolUp db')
      end
  end.

(** [PUT /admin/users/:id] *)
Definition putUserRoute (request : IJwtRequest) (pool : Pool) (now : Z)
  : RouteReply Reply * Pool :=
  match userGate request pool with
  | Next r =>
      let '(reply, pool') := updateUser bindText bindBool bindInt r pool now in
      (byController reply, pool')
  | Respond reply => (byMiddleware reply, pool)
  | Raise => (unhandled, pool)
  end.

(** [PUT /admin/users/:id/role] *)
Definition putUserRoleRoute (request : IJwtRequest) (pool : Pool) (now : Z)
  : RouteReply (Sent RoleChange) * Pool :=
  match putUserRoleGate request pool with
  | Next r =>
      let '(reply, pool') := changeUserRole r pool now in
      (byController reply, pool')
  | Respond reply => (byMiddleware reply, pool)
  | Raise => (unhandled, pool)
  end.

End Controllers.

(** Rows related one to one by [R], position by position. *)
Definition rowsRelated (R : AccountRow -> AccountRow -> Prop)
  (before after : Pool) : Prop :=
  match before, after with
  | PoolDown, PoolDown => True
  | PoolUp db, PoolUp db' =>
      Account_Credential db' = Account_Credential db
      /\ Forall2 R (Account db) (Account db')
  | _, _ => False
  end.

(** The primary key: no two rows of [Account] share an identifier. *)
Definition uniqueIds (db : Db) : Prop := NoDup (map account_id (Account db)).

(** Two rows agree outside the columns [changeUserRole] writes. *)
Definition sameOutsideRole (r r' : AccountRow) : Prop :=
  account_id r' = account_id r
  /\ firstname r' = firstname r
  /\ lastname r' = lastname r
  /\ username r' = username r
  /\ email r' = email r
  /\ phone r' = phone r
  /\ email_verified r' = email_verified r
  /\ phone_verified r' = phone_verified r
  /\ account_status r' = account_status r
  /\ created_at r' = created_at r.

(** What [deleteUser] at time [now] may do to one row when the target is
    [target]: nothing, or mark it deleted if it is a row of the target that
    was not deleted yet. *)
Definition softDeleteFrame (now : Z) (target : option Z) (r r' : AccountRow)
  : Prop :=
  r' = r
  \/ (target = Some (account_id r)
      /\ account_status r <> "deleted"
      /\ r' = markDeleted now r).

(** The row after [SET Account_Role = v, Updated_At = NOW()]. *)
Definition withRole (v now : Z) (r : AccountRow) : AccountRow :=
  {| account_id := account_id r; firstname := firstname r;
     lastname := lastname r; username := username r;
     email := email r; phone := phone r;
     account_role := v;
     email_verified := email_verified r;
     phone_verified := phone_verified r;
     account_status := account_status r;
     created_at := created_at r; updated_at := now |}.

(** What [changeUserRole] may do to one row when the target is [target]. *)
Definition roleChangeFrame (target : option Z) (r r' : AccountRow) : Prop :=
  sameOutsideRole r r' /\ (target <> Some (account_id r) -> r' = r).

(** ** The reading controllers of adminController.ts *)





From Stdlib Require DecimalString.
From Stdlib Require Import Permutation Sorted.

(** The fields of [request.query] that [getAllUsers] reads. *)
Record ListQuery : Type := {
  query_page : JsValue;
  query_limit : JsValue;
  query_status : JsValue;
  query_role : JsValue
}.

(** A value in a condition: [if (v)]. *)
Definition truthy (v : JsValue) : bool :=
  match v with
  | JUndefined | JNull | JNaN => false
  | JBool b => b
  | JNum n => negb (n =? 0)
  | JStr s => negb (String.eqb s "")
  | JFrac _ => true
  end.

(** [parseInt(v) || d]: [NaN] and 0 give way to [d]. *)
Definition parseIntOr (v : JsValue) (d : Z) : Z :=
  match parseInt v with
  | Some n => if n =? 0 then d else n
  | None => d
  end.

Definition pageOf (query : ListQuery) : Z := parseIntOr (query_page query) 1.

Definition limitOf (query : ListQuery) : Z :=
  Z.min (parseIntOr (query_limit query) 20) 100.

(** [(page - 1) * limit], each result a double. *)
Definition offsetOf (query : ListQuery) : Z :=
  roundDouble (roundDouble (pageOf query - 1) * limitOf query).

(** LIMIT and OFFSET are 64-bit integers of the store. *)
Definition maxBigint : Z := 2 ^ 63 - 1.

(** The role condition is added for a role that parses into 1..5. *)
Definition roleFilter (query : ListQuery) : option Z :=
  if truthy (query_role query)
  then match parseInt (query_role query) with
       | Some roleNumber =>
           if (roleNumber >=? 1) && (roleNumber <=? 5)
           then Some roleNumber else None
       | None => None
       end
  else None.

(** The role is reported among the applied filters when it parses. *)
Definition reportedRole (query : ListQuery) : option Z :=
  if truthy (query_role query) then parseInt (query_role query) else None.

(** One user of a listing. *)
Record ListedUser : Type := {
  lu_id : Z;
  lu_firstName : string;
  lu_lastName : string;
  lu_username : string;
  lu_email : string;
  lu_phone : string;
  lu_role : string;
  lu_roleLevel : Z;
  lu_emailVerified : bool;
  lu_phoneVerified : bool;
  lu_accountStatus : string;
  lu_createdAt : Z;
  lu_updatedAt : Z
}.

Record Pagination : Type := {
  pg_page : Z;
  pg_limit : Z;
  pg_totalUsers : nat;
  pg_totalPages : Z
}.

Record AppliedFilters : Type := {
  af_status : option JsValue;
  af_role : option (Z * string)
}.

(** The data of a listing; [filters] is [None] for [null]. *)
Record UsersPage : Type := {
  users : list ListedUser;
  pagination : Pagination;
  filters : option AppliedFilters
}.

Section Listing.

Variable bindText : JsValue -> option string.
Variable RoleName : JsValue -> string.

(** [ORDER BY a.Created_At DESC]: the order the store returns the rows
    in. *)
Variable orderByCreatedDesc : list AccountRow -> list AccountRow.

Definition listedUser (user : AccountRow) : ListedUser :=
  {| lu_id := account_id user;
     lu_firstName := firstname user;
     lu_lastName := lastname user;
     lu_username := username user;
     lu_email := email user;
     lu_phone := phone user;
     lu_role := RoleName (JNum (account_role user));
     lu_roleLevel := account_role user;
     lu_emailVerified := email_verified user;
     lu_phoneVerified := phone_verified user;
     lu_accountStatus := account_status user;
     lu_createdAt := created_at user;
     lu_updatedAt := updated_at user |}.

(** The WHERE clause of both queries, for a status the store read as
    [status] and the role condition [role], each when present. *)
Definition matchesFilters (status : option string) (role : option Z)
  (r : AccountRow) : bool :=
  match status with
  | Some s => String.eqb (account_status r) s
  | None => true
  end
  && match role with
     | Some n => account_role r =? n
     | None => true
     end.

(** [Math.ceil(totalUsers / limit)] for a positive limit. *)
Definition totalPagesOf (totalUsers : nat) (limit : Z) : Z :=
  - ((- Z.of_nat totalUsers) / limit).

(** [getAllUsers] on [request.query]. A status the store cannot read as
    text, a negative LIMIT or OFFSET, or an OFFSET beyond 64 bits, makes a
    query throw. *)
Definition getAllUsers (query : ListQuery) (pool : Pool) : Sent UsersPage :=
  let page := pageOf query in
  let limit := limitOf query in
  let offset := offsetOf query in
  let status := query_status query in
  let failed :=
    sentError 500 "Failed to fetch users" SRVR_DATABASE_ERROR in
  match pool with
  | PoolDown => failed
  | PoolUp db =>
      let statusParam :=
        if truthy status
        then match bindText status with
             | Some s => Some (Some s)
             | None => None
             end
        else Some None in
      match statusParam with
      | None => failed
      | Some statusFilter =>
          let matching :=
            filter (matchesFilters statusFilter (roleFilter query))
                   (Account db) in
          let totalUsers := length matching in
          if (limit <? 0) || (offset <? 0) || (maxBigint <? offset)
          then failed
          else
            let rows :=
              firstn (Z.to_nat limit)
                (skipn (Z.to_nat offset) (orderByCreatedDesc matching)) in
            let appliedStatus :=
              if truthy status then Some status else None in
            let appliedRole :=
              match reportedRole query with
              | Some roleNumber =>
                  Some (roleNumber, RoleName (JNum roleNumber))
              | None => None
              end in
            let anyFilter :=
              match appliedStatus, appliedRole with
              | None, None => false
              | _, _ => true
              end in
            sentSuccess
              {| users := map listedUser rows;
                 pagination :=
                   {| pg_page := page; pg_limit := limit;
                      pg_totalUsers := totalUsers;
                      pg_totalPages := totalPagesOf totalUsers limit |};
                 filters :=
                   if anyFilter
                   then Some {| af_status := appliedStatus;
                                af_role := appliedRole |}
                   else None |}
              ("Retrieved "
                 ++ DecimalString.NilZero.string_of_uint
                      (Nat.to_uint totalUsers)
                 ++ " users"
                 ++ (if anyFilter then " with filters applied" else ""))
      end
  end.

End Listing.

(** ** The list validation chain of validation.ts *)

Definition isIntFrom (lo : Z) (v : JsValue) : bool :=
  match fieldInt v with
  | Some n => lo <=? n
  | None => false
  end.

(** [.isIn([...])] *)
Definition isIn (allowed : list string) (v : JsValue) : bool :=
  match v with
  | JStr s => existsb (String.eqb s) allowed
  | JUndefined | JNull | JNaN | JBool _ | JNum _ | JFrac _ => false
  end.

(** [.optional()]: an undefined field is neither checked nor sanitized. *)
Definition optionalCheck (v : JsValue) (failed : bool) (field msg : string)
  : list (string * string) :=
  if isDefined v then check failed field msg else [].

Definition optionalToInt (v : JsValue) : JsValue :=
  if isDefined v then toInt v else v.

(** [validateAdminUsersList], ending in [handleValidationErrors]: the
    sanitized query, or the 400 reply. *)
Definition validateAdminUsersList (query : ListQuery) : ListQuery + Reply :=
  let page := query_page query in
  let limit := query_limit query in
  let status := query_status query in
  let role := query_role query in
  let errors :=
    (optionalCheck page (negb (isIntFrom 1 page)) "page"
       "Page must be a positive integer"
     ++ optionalCheck limit (negb (isIntBetween 1 100 limit)) "limit"
          "Limit must be between 1 and 100"
     ++ optionalCheck status
          (negb (isIn ["active"; "pending"; "suspended"; "locked"; "deleted"]
                      status))
          "status"
          "Status must be one of: active, pending, suspended, locked, deleted"
     ++ optionalCheck role (negb (isIntBetween 1 5 role)) "role"
          "Role must be an integer between 1 and 5")%list in
  match errors with
  | [] =>
      inl {| query_page := optionalToInt page;
             query_limit := optionalToInt limit;
             query_status := status;
             query_role := optionalToInt role |}
  | _ :: _ => inr (validationFailed errors)
  end.

(** A store order for the samples: insertion by creation time, newest
    first. *)
Fixpoint insertNewest (r : AccountRow) (rows : list AccountRow)
  : list AccountRow :=
  match rows with
  | [] => [r]
  | h :: rest =>
      if created_at h <=? created_at r then r :: rows
      else h :: insertNewest r rest
  end.

Definition sortNewestFirst (rows : list AccountRow) : list AccountRow :=
  fold_right insertNewest [] rows.

(** The query with its role left out. *)
Definition withoutRole (query : ListQuery) : ListQuery :=
  {| query_page := query_page query;
     query_limit := query_limit query;
     query_status := query_status query;
     query_role := JUndefined |}.

(** * Properties *)

(** ** Numbers as doubles *)

(** Up to 2^53 an integer is its own double, and [parseInt] reads a
    number back as it is. *)
Lemma roundMagnitude_small m : 0 <= m < 2 ^ 53 -> roundMagnitude m = m.
Proof.
  intros [Hlo Hhi]. unfold roundMagnitude.
  destruct (Z.leb_spec (Z.log2 m + 1) 53) as [_ | Hbits]; [reflexivity |].
  exfalso. destruct (Z.eq_dec m 0) as [-> | Hpos]; [simpl in Hbits; lia |].
  assert (Z.log2 m < 53) by (apply Z.log2_lt_pow2; lia). lia.
Qed.

Lemma roundDouble_small n : Z.abs n < 2 ^ 53 -> roundDouble n = n.
Proof.
  intros Hsmall. unfold roundDouble.
  rewrite roundMagnitude_small by lia. lia.
Qed.

Lemma parseInt_number_small n :
  Z.abs n < 2 ^ 53 -> parseInt (JNum n) = Some n.
Proof.
  intros Hsmall. unfold parseInt, parseIntNumber.
  rewrite (roundDouble_small n Hsmall).
  assert (Hinf : 2 ^ 53 < infinity) by reflexivity.
  assert (Hexp : 2 ^ 53 < 10 ^ 21) by reflexivity.
  destruct (Z.leb_spec infinity (Z.abs n)); [lia |].
  destruct (Z.ltb_spec (Z.abs n) (10 ^ 21)); [reflexivity | lia].
Qed.

(** ** Reading decisions off the replies *)

Lemma decision_hierarchy_denial (verb : string) :
  decision (Respond (sendError 403
    ("Cannot " ++ (if String.eqb verb "DELETE" then "delete" else "modify")
       ++ " user with equal or higher role") AUTH_UNAUTHORIZED))
  = Some (DENY INSUFFICIENT_HIERARCHY).
Proof. destruct (String.eqb verb "DELETE"); reflexivity. Qed.

Lemma not_self_delete (verb : string) (t a : Z) :
  (verb = "DELETE" -> t <> a) ->
  String.eqb verb "DELETE" && (t =? a) = false.
Proof.
  intros Hother.
  destruct (String.eqb_spec verb "DELETE") as [Hverb | Hverb]; simpl.
  - apply Z.eqb_neq. auto.
  - reflexivity.
Qed.

(** With the lookup answered, [checkRoleHierarchy] is one comparison. *)
Lemma checkRoleHierarchy_found request pool c t tr rest :
  claims request = Some c ->
  parseInt (params_id request) = Some t ->
  (method request = "DELETE" -> t <> claims_id c) ->
  selectAccountRole pool t = Rows (tr :: rest) ->
  checkRoleHierarchy request pool =
    if claims_role c <=? tr
    then Respond (sendError 403
           ("Cannot "
              ++ (if String.eqb (method request) "DELETE"
                  then "delete" else "modify")
              ++ " user with equal or higher role") AUTH_UNAUTHORIZED)
    else Next (setTargetUserRole request tr).
Proof.
  intros Hc Hid Hother Hrow. unfold checkRoleHierarchy.
  rewrite Hc, Hid, (not_self_delete _ _ _ Hother), Hrow. reflexivity.
Qed.

(** ** C1: update and delete need a strictly higher role *)

(** C1. When the gate of UPDATE and DELETE reaches its hierarchy check
    (the target parses, has a role in the store, and the request is not a
    delete of oneself), it allows exactly when the acting role is strictly
    greater than the target's role; otherwise, and so for equal roles and
    for an Owner acting on an Owner, it denies with INSUFFICIENT_HIERARCHY,
    whatever the method. *)
Theorem C1_modify_or_delete_strictly_greater
  request pool c t tr rest :
  claims request = Some c ->
  parseInt (params_id request) = Some t ->
  (method request = "DELETE" -> t <> claims_id c) ->
  selectAccountRole pool t = Rows (tr :: rest) ->
  (decision (checkRoleHierarchy request pool) = Some ALLOW
     <-> claims_role c > tr)
  /\ (claims_role c <= tr ->
      decision (checkRoleHierarchy request pool)
      = Some (DENY INSUFFICIENT_HIERARCHY))
  /\ (claims_role c = tr ->
      decision (checkRoleHierarchy request pool)
      = Some (DENY INSUFFICIENT_HIERARCHY))
  /\ (claims_role c = UserRole.OWNER -> tr = UserRole.OWNER ->
      decision (checkRoleHierarchy request pool)
      = Some (DENY INSUFFICIENT_HIERARCHY)).
Proof.
  intros Hc Hid Hother Hrow.
  rewrite (checkRoleHierarchy_found _ _ _ _ _ _ Hc Hid Hother Hrow).
  destruct (Z.leb_spec (claims_role c) tr) as [Hle | Hgt].
  - rewrite decision_hierarchy_denial. repeat split; intros; try lia.
    discriminate.
  - simpl. repeat split; intros; lia || reflexivity.
Qed.

(** C1 at work: role 4 updating account 6, of role 2. *)
Lemma C1_witness :
  decision (checkRoleHierarchy
              (sampleRequest "PUT" 3 4 "6" emptyBody) samplePool)
  = Some ALLOW <-> 4 > 2.
Proof.
  apply (C1_modify_or_delete_strictly_greater
           (sampleRequest "PUT" 3 4 "6" emptyBody) samplePool
           {| claims_id := 3; claims_role := 4 |} 6 2 []).
  - reflexivity.
  - reflexivity.
  - intros _; simpl; lia.
  - reflexivity.
Defined.

(** ** C3: creation allows equal or lower roles *)

(** C3. [validateRoleCreation] allows a requested role in 1..5 exactly when
    it does not exceed the acting role and denies it with ROLE_TOO_HIGH
    otherwise; a requested role outside 1..5, or one that is not a number,
    is denied with INVALID_ROLE for every acting role. This holds of the
    role as [parseInt] reads it, and so of a body that carries the role as
    a number or as its digit: a role in 1..5 sent either way is allowed
    exactly up to the acting role, and an absent role, [null], a boolean
    or a number outside 1..5 is invalid. *)
Theorem C3_create_at_or_below_own_role request c :
  claims request = Some c ->
  (forall rr, parseInt (body_role (body request)) = Some rr ->
     1 <= rr <= 5 ->
     (decision (validateRoleCreation request) = Some ALLOW
        <-> rr <= claims_role c)
     /\ (rr > claims_role c ->
         decision (validateRoleCreation request) = Some (DENY ROLE_TOO_HIGH)))
  /\ (forall rr, parseInt (body_role (body request)) = Some rr ->
        ~ 1 <= rr <= 5 ->
        decision (validateRoleCreation request) = Some (DENY INVALID_ROLE))
  /\ (parseInt (body_role (body request)) = None ->
        decision (validateRoleCreation request) = Some (DENY INVALID_ROLE))
  /\ (forall rr, 1 <= rr <= 5 ->
        body_role (body request) = JNum rr
        \/ body_role (body request)
           = JStr (String (ascii_of_N (Z.to_N (48 + rr))) "") ->
        (decision (validateRoleCreation request) = Some ALLOW
           <-> rr <= claims_role c)
        /\ (rr > claims_role c ->
            decision (validateRoleCreation request)
            = Some (DENY ROLE_TOO_HIGH)))
  /\ (forall rr, Z.abs rr < 2 ^ 53 -> ~ 1 <= rr <= 5 ->
        body_role (body request) = JNum rr ->
        decision (validateRoleCreation request) = Some (DENY INVALID_ROLE))
  /\ (body_role (body request) = JUndefined
      \/ body_role (body request) = JNull
      \/ body_role (body request) = JNaN
      \/ (exists b, body_role (body request) = JBool b) ->
      decision (validateRoleCreation request) = Some (DENY INVALID_ROLE)).
Proof.
  intros Hc.
  assert (Hin : forall rr, parseInt (body_role (body request)) = Some rr ->
     1 <= rr <= 5 ->
     (decision (validateRoleCreation request) = Some ALLOW
        <-> rr <= claims_role c)
     /\ (rr > claims_role c ->
         decision (validateRoleCreation request)
         = Some (DENY ROLE_TOO_HIGH))).
  { intros rr Hrr Hrange. unfold validateRoleCreation. rewrite Hc, Hrr.
    destruct (Z.ltb_spec rr 1); [lia |].
    destruct (Z.gtb_spec rr 5); [lia |]. simpl.
    destruct (Z.gtb_spec rr (claims_role c)); simpl.
    - split; [split; [discriminate | lia] | reflexivity].
    - split; [split; [lia | reflexivity] | lia]. }
  assert (Hout : forall rr, parseInt (body_role (body request)) = Some rr ->
     ~ 1 <= rr <= 5 ->
     decision (validateRoleCreation request) = Some (DENY INVALID_ROLE)).
  { intros rr Hrr Hrange. unfold validateRoleCreation. rewrite Hc, Hrr.
    destruct (Z.ltb_spec rr 1); [reflexivity |].
    destruct (Z.gtb_spec rr 5); [reflexivity | lia]. }
  assert (Hnan : parseInt (body_role (body request)) = None ->
     decision (validateRoleCreation request) = Some (DENY INVALID_ROLE)).
  { intros Hnan. unfold validateRoleCreation. rewrite Hc, Hnan.
    reflexivity. }
  split; [exact Hin |]. split; [exact Hout |]. split; [exact Hnan |].
  split; [| split].
  - intros rr Hrange Hsent. apply Hin; [| exact Hrange].
    destruct Hsent as [-> | ->].
    + apply parseInt_number_small.
      assert (8 < 2 ^ 53) by reflexivity. lia.
    + assert (Hrr : rr = 1 \/ rr = 2 \/ rr = 3 \/ rr = 4 \/ rr = 5) by lia.
      destruct Hrr as [-> | [-> | [-> | [-> | ->]]]]; reflexivity.
  - intros rr Hsmall Hrange Hsent. apply (Hout rr); [| exact Hrange].
    rewrite Hsent. apply parseInt_number_small. exact Hsmall.
  - intros Hsent. apply Hnan.
    destruct Hsent as [-> | [-> | [-> | [b ->]]]]; reflexivity.
Qed.

(** C3 at work: an Admin creating an Admin, the role sent as text. *)
Lemma C3_witness :
  decision (validateRoleCreation
              (sampleRequest "POST" 4 3 "" (roleBody (JStr "3"))))
  = Some ALLOW.
Proof.
  apply (proj1 (proj1 (proj2 (proj2 (proj2
           (C3_create_at_or_below_own_role
              (sampleRequest "POST" 4 3 "" (roleBody (JStr "3")))
              {| claims_id := 4; claims_role := 3 |} eq_refl))))
           3 ltac:(lia) (or_intror eq_refl))).
  simpl; lia.
Defined.

(** ** C4: nobody deletes their own account *)

(** C4. A DELETE whose target is the acting principal is answered with the
    self-action denial before any lookup: for every acting role, every
    store (so every target role, present or not) and every identifier. *)
Theorem C4_self_delete_denied request pool c :
  claims request = Some c ->
  method request = "DELETE" ->
  parseInt (params_id request) = Some (claims_id c) ->
  checkRoleHierarchy request pool
  = Respond (sendError 400 "Cannot delete your own account" AUTH_UNAUTHORIZED)
  /\ decision (checkRoleHierarchy request pool) = Some (DENY SELF_ACTION).
Proof.
  intros Hc Hverb Hid. unfold checkRoleHierarchy.
  rewrite Hc, Hid, Hverb, Z.eqb_refl. simpl. split; reflexivity.
Qed.

(** C4 at work: Owner 1 deleting account 1. *)
Lemma C4_witness :
  decision (checkRoleHierarchy
              (sampleRequest "DELETE" 1 5 "1" emptyBody) samplePool)
  = Some (DENY SELF_ACTION).
Proof.
  apply (C4_self_delete_denied
           (sampleRequest "DELETE" 1 5 "1" emptyBody) samplePool
           {| claims_id := 1; claims_role := 5 |});
    reflexivity.
Defined.

(** ** C5: the capability check and its Owner shortcut *)

(** C5. [canModifyUser] is true exactly when the modifier is an Owner or
    has a strictly higher role than the target; so it is true for Owner on
    Owner, where the gate [checkRoleHierarchy] denies. *)
Theorem C5_capability_owner_shortcut :
  (forall modifierRole targetRole,
     canModifyUser modifierRole targetRole = true
     <-> modifierRole = 5 \/ modifierRole > targetRole)
  /\ canModifyUser 5 5 = true
  /\ (forall request pool c t rest,
        claims request = Some c ->
        claims_role c = 5 ->
        parseInt (params_id request) = Some t ->
        (method request = "DELETE" -> t <> claims_id c) ->
        selectAccountRole pool t = Rows (5 :: rest) ->
        decision (checkRoleHierarchy request pool)
        = Some (DENY INSUFFICIENT_HIERARCHY)).
Proof.
  split; [| split].
  - intros m t. unfold canModifyUser, UserRole.OWNER.
    destruct (Z.eqb_spec m 5) as [Heq | Hne].
    + split; [left; exact Heq | reflexivity].
    + destruct (Z.gtb_spec m t); split; intros;
        lia || reflexivity || discriminate.
  - reflexivity.
  - intros request pool c t rest Hc Hrole Hid Hother Hrow.
    rewrite (checkRoleHierarchy_found _ _ _ _ _ _ Hc Hid Hother Hrow).
    rewrite Hrole. simpl. apply decision_hierarchy_denial.
Qed.

(** C5 at work: Owner 1 updating account 2, another Owner. *)
Lemma C5_witness :
  canModifyUser 5 5 = true
  /\ decision (checkRoleHierarchy
                 (sampleRequest "PUT" 1 5 "2" emptyBody) samplePool)
     = Some (DENY INSUFFICIENT_HIERARCHY).
Proof.
  split.
  - apply (proj1 (proj2 C5_capability_owner_shortcut)).
  - apply (proj2 (proj2 C5_capability_owner_shortcut)
             (sampleRequest "PUT" 1 5 "2" emptyBody) samplePool
             {| claims_id := 1; claims_role := 5 |} 2 []).
    + reflexivity.
    + reflexivity.
    + reflexivity.
    + intros _; simpl; lia.
    + reflexivity.
Defined.

(** ** C2 and C7: the role-change rules *)

(** Past its parsing and self checks, [checkRoleChangeHierarchy] is the
    promotion ceiling, then the lookup with the remaining two rules. *)
Lemma checkRoleChangeHierarchy_other request pool c t nr :
  claims request = Some c ->
  parseInt (params_id request) = Some t ->
  parseInt (body_role (body request)) = Some nr ->
  t <> claims_id c ->
  checkRoleChangeHierarchy request pool =
    if nr >? claims_role c
    then Respond (sendError 403
           "Cannot promote user to higher role than your own"
           AUTH_UNAUTHORIZED)
    else
      match selectAccountRole pool t with
      | QueryThrows =>
          Respond (sendError 500 "Server error during authorization check"
                             SRVR_DATABASE_ERROR)
      | Rows [] => NOT_FOUND
      | Rows (currentTargetRole :: _) =>
          if currentTargetRole >=? claims_role c
          then Respond (sendError 403
                 "Cannot change role of user with equal or higher role"
                 AUTH_UNAUTHORIZED)
          else if (claims_role c =? 3) && (nr >? 3)
          then Respond (sendError 403
                 "Admins can only assign roles up to admin level"
                 AUTH_UNAUTHORIZED)
          else Next request
      end.
Proof.
  intros Hc Hid Hrole Hother. unfold checkRoleChangeHierarchy.
  rewrite Hc, Hid, Hrole.
  destruct (Z.eqb_spec t (claims_id c)) as [Heq | _]; [contradiction |].
  reflexivity.
Qed.

(** C2. For a target other than the acting principal whose current role
    the lookup returns, [checkRoleChangeHierarchy] allows exactly when the
    requested role does not exceed the acting role, the target's current
    role is strictly below the acting role, and the acting role is not 3
    with a requested role above 3; for a requested role in 1..5 its
    decision is that of the specification's rule list, first failing rule
    first. Acting role 4 moving a role-2 target to 3 is allowed; acting
    role 3 moving a role-3 target to 2 is denied with
    INSUFFICIENT_HIERARCHY. *)
Theorem C2_change_role_rules request pool c t tr rest nr :
  claims request = Some c ->
  parseInt (params_id request) = Some t ->
  parseInt (body_role (body request)) = Some nr ->
  t <> claims_id c ->
  selectAccountRole pool t = Rows (tr :: rest) ->
  (decision (checkRoleChangeHierarchy request pool) = Some ALLOW
     <-> nr <= claims_role c /\ tr < claims_role c
         /\ ~ (claims_role c = 3 /\ nr > 3))
  /\ (1 <= nr <= 5 ->
      decision (checkRoleChangeHierarchy request pool)
      = Some (canChangeRole_spec (claims_role c) (claims_id c) t tr nr))
  /\ (claims_role c = 4 -> tr = 2 -> nr = 3 ->
      decision (checkRoleChangeHierarchy request pool) = Some ALLOW)
  /\ (claims_role c = 3 -> tr = 3 -> nr = 2 ->
      decision (checkRoleChangeHierarchy request pool)
      = Some (DENY INSUFFICIENT_HIERARCHY)).
Proof.
  intros Hc Hid Hrole Hother Hrow.
  rewrite (checkRoleChangeHierarchy_other _ _ _ _ _ Hc Hid Hrole Hother), Hrow.
  unfold canChangeRole_spec.
  destruct (Z.eqb_spec (claims_id c) t) as [Heq | _];
    [symmetry in Heq; contradiction |].
  destruct (Z.gtb_spec nr (claims_role c)) as [Hgt | Hle].
  { simpl. repeat split; intros; try lia; try discriminate.
    destruct (Z.ltb_spec nr 1); [lia |].
    destruct (Z.gtb_spec nr 5); [lia |]. reflexivity. }
  destruct (Z.geb_spec tr (claims_role c)) as [Hge | Hlt].
  { simpl. repeat split; intros; try lia; try discriminate.
    destruct (Z.ltb_spec nr 1); [lia |].
    destruct (Z.gtb_spec nr 5); [lia |]. reflexivity. }
  destruct (Z.eqb_spec (claims_role c) 3) as [Hthree | Hnot];
    destruct (Z.gtb_spec nr 3) as [Habove | Hupto]; simpl;
    try lia;
    (repeat split; intros; try lia; try reflexivity;
     destruct (Z.ltb_spec nr 1); [lia |];
     destruct (Z.gtb_spec nr 5); [lia |]; reflexivity).
Qed.

(** C2 at work: Super Admin 3 moving account 6 from role 2 to role 3. *)
Lemma C2_witness :
  decision (checkRoleChangeHierarchy
              (sampleRequest "PUT" 3 4 "6" (roleBody (JNum 3))) samplePool)
  = Some (canChangeRole_spec 4 3 6 2 3).
Proof.
  apply (proj1 (proj2 (C2_change_role_rules
           (sampleRequest "PUT" 3 4 "6" (roleBody (JNum 3))) samplePool
           {| claims_id := 3; claims_role := 4 |} 6 2 [] 3
           eq_refl eq_refl eq_refl ltac:(simpl; lia) eq_refl))).
  lia.
Defined.

(** C7. Acting role 3 asking for role 4 for another principal is denied
    with PROMOTION_CEILING, before any lookup and so whatever the target's
    role; and no request at all, for acting role 3 or any other, is
    answered with TIER_CEILING: that branch is never the reply. *)
Theorem C7_promotion_ceiling_first :
  (forall request pool c t,
     claims request = Some c ->
     claims_role c = 3 ->
     parseInt (params_id request) = Some t ->
     t <> claims_id c ->
     parseInt (body_role (body request)) = Some 4 ->
     checkRoleChangeHierarchy request pool
     = Respond (sendError 403
         "Cannot promote user to higher role than your own" AUTH_UNAUTHORIZED)
     /\ decision (checkRoleChangeHierarchy request pool)
        = Some (DENY PROMOTION_CEILING))
  /\ (forall request pool,
        decision (checkRoleChangeHierarchy request pool)
        <> Some (DENY TIER_CEILING))
  /\ (forall request pool,
        checkRoleChangeHierarchy request pool
        <> Respond (sendError 403
             "Admins can only assign roles up to admin level"
             AUTH_UNAUTHORIZED)).
Proof.
  assert (Hnever : forall request pool,
            decision (checkRoleChangeHierarchy request pool)
            <> Some (DENY TIER_CEILING)).
  { intros request pool. unfold checkRoleChangeHierarchy.
    destruct (claims request) as [c |]; [| discriminate].
    destruct (parseInt (params_id request)) as [t |];
      destruct (parseInt (body_role (body request))) as [nr |];
      try discriminate.
    destruct (t =? claims_id c); [discriminate |].
    destruct (Z.gtb_spec nr (claims_role c)) as [Hgt | Hle]; [discriminate |].
    destruct (selectAccountRole pool t) as [[| cur rows] |];
      try discriminate.
    destruct (cur >=? claims_role c); [discriminate |].
    destruct (Z.eqb_spec (claims_role c) 3) as [Hthree | Hnot];
      destruct (Z.gtb_spec nr 3) as [Habove | Hupto]; simpl;
      try discriminate.
    lia. }
  split; [| split].
  - intros request pool c t Hc Hthree Hid Hother Hrole.
    rewrite (checkRoleChangeHierarchy_other _ _ _ _ _ Hc Hid Hrole Hother).
    rewrite Hthree. simpl. split; reflexivity.
  - exact Hnever.
  - intros request pool Heq. apply (Hnever request pool).
    rewrite Heq. reflexivity.
Qed.

(** C7 at work: Admin 4 asking role 4 for account 6. *)
Lemma C7_witness :
  decision (checkRoleChangeHierarchy
              (sampleRequest "PUT" 4 3 "6" (roleBody (JNum 4))) samplePool)
  = Some (DENY PROMOTION_CEILING).
Proof.
  apply (proj1 C7_promotion_ceiling_first
           (sampleRequest "PUT" 4 3 "6" (roleBody (JNum 4))) samplePool
           {| claims_id := 4; claims_role := 3 |} 6
           eq_refl eq_refl eq_refl ltac:(simpl; lia) eq_refl).
Defined.

(** ** C6: the self check comes after parsing and validation *)

(** C6 fails as stated. Admin 4 targets their own account: with the role
    "admin", which does not parse, the gate answers "Invalid user ID or
    role"; with the role 9 the route ends in the validation chain. Neither
    reply is the self-action denial. *)
Lemma C6_counterexample :
  checkRoleChangeHierarchy
    (sampleRequest "PUT" 4 3 "4" (roleBody (JStr "admin"))) samplePool
  = Respond (sendError 400 "Invalid user ID or role" VALD_MISSING_FIELDS)
  /\ decision (checkRoleChangeHierarchy
                 (sampleRequest "PUT" 4 3 "4" (roleBody (JStr "admin")))
                 samplePool)
     <> Some (DENY SELF_ACTION)
  /\ putUserRoleGate
       (sampleRequest "PUT" 4 3 "4" (roleBody (JNum 9))) samplePool
     = Respond (validationFailed
         [("role", "Role must be an integer between 1 and 5")])
  /\ decision (putUserRoleGate
                 (sampleRequest "PUT" 4 3 "4" (roleBody (JNum 9)))
                 samplePool)
     <> Some (DENY SELF_ACTION).
Proof. repeat split; solve [reflexivity | discriminate]. Qed.

(** C6 (amended). When the target is the acting principal and the requested
    role parses to a number, [checkRoleChangeHierarchy] answers with the
    self-action denial, whatever the roles and the store, also for a number
    outside 1..5. A requested role that does not parse is answered first
    with "Invalid user ID or role"; and on the role-change route the
    validation chain runs before this gate, so an admin's request whose
    role is not an integer in 1..5 ends in the validation error. *)
Theorem C6_self_role_change_after_parsing :
  (forall request pool c nr,
     claims request = Some c ->
     parseInt (params_id request) = Some (claims_id c) ->
     parseInt (body_role (body request)) = Some nr ->
     checkRoleChangeHierarchy request pool
     = Respond (sendError 400 "Cannot change your own role" AUTH_UNAUTHORIZED)
     /\ decision (checkRoleChangeHierarchy request pool)
        = Some (DENY SELF_ACTION))
  /\ (forall request pool c,
        claims request = Some c ->
        parseInt (body_role (body request)) = None ->
        checkRoleChangeHierarchy request pool
        = Respond (sendError 400 "Invalid user ID or role"
                             VALD_MISSING_FIELDS))
  /\ (forall request pool c,
        claims request = Some c ->
        UserRole.ADMIN <= claims_role c ->
        isIntBetween 1 5 (body_role (body request)) = false ->
        exists errors,
          putUserRoleGate request pool = Respond (validationFailed errors)
          /\ In ("role", "Role must be an integer between 1 and 5") errors).
Proof.
  split; [| split].
  - intros request pool c nr Hc Hid Hrole. unfold checkRoleChangeHierarchy.
    rewrite Hc, Hid, Hrole, Z.eqb_refl. split; reflexivity.
  - intros request pool c Hc Hrole. unfold checkRoleChangeHierarchy.
    rewrite Hc, Hrole. destruct (parseInt (params_id request)); reflexivity.
  - intros request pool c Hc Hadmin Hrole.
    unfold putUserRoleGate, requireAdmin. rewrite Hc.
    destruct (Z.ltb_spec (claims_role c) UserRole.ADMIN) as [Hlow | _];
      [lia |].
    simpl. unfold validateAdminRoleChange. rewrite Hrole. simpl negb.
    match goal with
    | |- context [match ?l with [] => _ | _ :: _ => _ end] =>
        assert (Hin : In ("role", "Role must be an integer between 1 and 5") l)
          by (repeat (apply in_or_app; right); left; reflexivity);
        destruct l as [| e errors]
    end.
    + destruct Hin.
    + simpl. eexists. split; [reflexivity | exact Hin].
Qed.

(** C6 at work: Admin 4 asking role 9 for their own account, at the gate. *)
Lemma C6_witness :
  decision (checkRoleChangeHierarchy
              (sampleRequest "PUT" 4 3 "4" (roleBody (JNum 9))) samplePool)
  = Some (DENY SELF_ACTION).
Proof.
  apply (proj1 C6_self_role_change_after_parsing
           (sampleRequest "PUT" 4 3 "4" (roleBody (JNum 9))) samplePool
           {| claims_id := 4; claims_role := 3 |} 9
           eq_refl eq_refl eq_refl).
Defined.

(** ** C8: the status sent with each denial *)

(** C8 fails as stated. Owner 1 deleting account 1, and Super Admin 3
    changing the role of account 3, are denied for SELF_ACTION with status
    400, not 403; the delete route gives the same reply as its gate. *)
Lemma C8_counterexample :
  checkRoleHierarchy (sampleRequest "DELETE" 1 5 "1" emptyBody) samplePool
  = Respond (sendError 400 "Cannot delete your own account" AUTH_UNAUTHORIZED)
  /\ userGate (sampleRequest "DELETE" 1 5 "1" emptyBody) samplePool
     = Respond (sendError 400 "Cannot delete your own account"
                          AUTH_UNAUTHORIZED)
  /\ decision (checkRoleHierarchy
                 (sampleRequest "DELETE" 1 5 "1" emptyBody) samplePool)
     = Some (DENY SELF_ACTION)
  /\ replyStatus (sendError 400 "Cannot delete your own account"
                            AUTH_UNAUTHORIZED)
     <> Some 403
  /\ checkRoleChangeHierarchy
       (sampleRequest "PUT" 3 4 "3" (roleBody (JNum 2))) samplePool
     = Respond (sendError 400 "Cannot change your own role" AUTH_UNAUTHORIZED)
  /\ decision (checkRoleChangeHierarchy
                 (sampleRequest "PUT" 3 4 "3" (roleBody (JNum 2))) samplePool)
     = Some (DENY SELF_ACTION)
  /\ replyStatus (sendError 400 "Cannot change your own role"
                            AUTH_UNAUTHORIZED)
     <> Some 403.
Proof. repeat split; solve [reflexivity | discriminate]. Qed.

Ltac settle_reply Hreply Hdecision :=
  try discriminate Hreply;
  injection Hreply as <-;
  simpl in Hdecision;
  try discriminate Hdecision;
  injection Hdecision as <-;
  reflexivity.

Lemma checkRoleHierarchy_status request pool reply reason :
  checkRoleHierarchy request pool = Respond reply ->
  decision (Respond reply) = Some (DENY reason) ->
  replyStatus reply = Some (denialStatus reason).
Proof.
  unfold checkRoleHierarchy. intros Hreply Hdecision.
  destruct (claims request) as [c |]; [| discriminate].
  destruct (parseInt (params_id request)) as [t |];
    [| settle_reply Hreply Hdecision].
  destruct (String.eqb (method request) "DELETE");
    destruct (t =? claims_id c); simpl in Hreply;
    try settle_reply Hreply Hdecision;
    (destruct (selectAccountRole pool t) as [[| tr rows] |];
     [settle_reply Hreply Hdecision
     | destruct (claims_role c <=? tr); settle_reply Hreply Hdecision
     | settle_reply Hreply Hdecision]).
Qed.

Lemma validateRoleCreation_status request reply reason :
  validateRoleCreation request = Respond reply ->
  decision (Respond reply) = Some (DENY reason) ->
  replyStatus reply = Some (denialStatus reason).
Proof.
  unfold validateRoleCreation. intros Hreply Hdecision.
  destruct (claims request) as [c |]; [| discriminate].
  destruct (parseInt (body_role (body request))) as [nr |];
    [| settle_reply Hreply Hdecision].
  destruct ((nr <? 1) || (nr >? 5)); [settle_reply Hreply Hdecision |].
  destruct (nr >? claims_role c); settle_reply Hreply Hdecision.
Qed.

Lemma checkRoleChangeHierarchy_status request pool reply reason :
  checkRoleChangeHierarchy request pool = Respond reply ->
  decision (Respond reply) = Some (DENY reason) ->
  replyStatus reply = Some (denialStatus reason).
Proof.
  unfold checkRoleChangeHierarchy. intros Hreply Hdecision.
  destruct (claims request) as [c |]; [| discriminate].
  destruct (parseInt (params_id request)) as [t |];
    destruct (parseInt (body_role (body request))) as [nr |];
    try settle_reply Hreply Hdecision.
  destruct (t =? claims_id c); [settle_reply Hreply Hdecision |].
  destruct (nr >? claims_role c); [settle_reply Hreply Hdecision |].
  destruct (selectAccountRole pool t) as [[| cur rows] |];
    try settle_reply Hreply Hdecision.
  destruct (cur >=? claims_role c); [settle_reply Hreply Hdecision |].
  destruct ((claims_role c =? 3) && (nr >? 3));
    settle_reply Hreply Hdecision.
Qed.

(** C8 (amended). Every policy denial of the three gates is sent with its
    rule's own message and with the status of [denialStatus]: 403 for the
    hierarchy denials (ROLE_TOO_HIGH, INSUFFICIENT_HIERARCHY,
    PROMOTION_CEILING), 400 for SELF_ACTION and INVALID_ROLE. A self-delete
    and a self-role-change are both answered with status 400. *)
Theorem C8_denial_statuses :
  (forall request pool reply reason,
     checkRoleHierarchy request pool = Respond reply
     \/ validateRoleCreation request = Respond reply
     \/ checkRoleChangeHierarchy request pool = Respond reply ->
     decision (Respond reply) = Some (DENY reason) ->
     replyStatus reply = Some (denialStatus reason))
  /\ (forall request pool c,
        claims request = Some c ->
        method request = "DELETE" ->
        parseInt (params_id request) = Some (claims_id c) ->
        exists reply,
          checkRoleHierarchy request pool = Respond reply
          /\ decision (Respond reply) = Some (DENY SELF_ACTION)
          /\ replyStatus reply = Some 400)
  /\ (forall request pool c nr,
        claims request = Some c ->
        parseInt (params_id request) = Some (claims_id c) ->
        parseInt (body_role (body request)) = Some nr ->
        exists reply,
          checkRoleChangeHierarchy request pool = Respond reply
          /\ decision (Respond reply) = Some (DENY SELF_ACTION)
          /\ replyStatus reply = Some 400).
Proof.
  split; [| split].
  - intros request pool reply reason [H | [H | H]] Hdecision.
    + exact (checkRoleHierarchy_status _ _ _ _ H Hdecision).
    + exact (validateRoleCreation_status _ _ _ H Hdecision).
    + exact (checkRoleChangeHierarchy_status _ _ _ _ H Hdecision).
  - intros request pool c Hc Hverb Hid. unfold checkRoleHierarchy.
    rewrite Hc, Hid, Hverb, Z.eqb_refl. simpl.
    eexists. repeat split; reflexivity.
  - intros request pool c nr Hc Hid Hrole. unfold checkRoleChangeHierarchy.
    rewrite Hc, Hid, Hrole, Z.eqb_refl.
    eexists. repeat split; reflexivity.
Qed.

(** C8 at work: Admin 4 updating account 3, a Super Admin. *)
Lemma C8_witness :
  replyStatus (sendError 403 "Cannot modify user with equal or higher role"
                         AUTH_UNAUTHORIZED)
  = Some (denialStatus INSUFFICIENT_HIERARCHY).
Proof.
  apply (proj1 C8_denial_statuses
           (sampleRequest "PUT" 4 3 "3" emptyBody) samplePool
           (sendError 403 "Cannot modify user with equal or higher role"
                      AUTH_UNAUTHORIZED)
           INSUFFICIENT_HIERARCHY).
  - left. reflexivity.
  - reflexivity.
Defined.

(** ** C9: NOT_FOUND and the checks placed before the lookup *)

Lemma selectAccountRole_absent db t :
  inIntegerColumn t = true ->
  (forall r, In r (Account db) -> account_id r <> t) ->
  selectAccountRole (PoolUp db) t = Rows [].
Proof.
  intros Hrange Habsent. unfold selectAccountRole. rewrite Hrange. f_equal.
  induction (Account db) as [| r rows IH]; [reflexivity |].
  simpl. unfold hasId at 1.
  destruct (Z.eqb_spec (account_id r) t) as [Heq | _].
  - exfalso. apply (Habsent r); [left; reflexivity | exact Heq].
  - apply IH. intros r' Hin. apply Habsent. right. exact Hin.
Qed.

(** C9 fails as stated. No account has the identifier 99; Admin 4 asking
    role 5 for it is answered with the promotion denial, at the gate and on
    the route, and a principal 99 deleting 99 with the self-action denial:
    neither reply is NOT_FOUND. Nor has any account the identifier
    2147483648, which no integer column holds: the lookup throws, and an
    update of it is answered with 500. *)
Lemma C9_counterexample :
  (forall r, In r (Account sampleDb) -> account_id r <> 99)
  /\ checkRoleChangeHierarchy
       (sampleRequest "PUT" 4 3 "99" (roleBody (JNum 5))) samplePool
     = Respond (sendError 403
         "Cannot promote user to higher role than your own" AUTH_UNAUTHORIZED)
  /\ putUserRoleGate
       (sampleRequest "PUT" 4 3 "99" (roleBody (JNum 5))) samplePool
     = Respond (sendError 403
         "Cannot promote user to higher role than your own" AUTH_UNAUTHORIZED)
  /\ checkRoleChangeHierarchy
       (sampleRequest "PUT" 4 3 "99" (roleBody (JNum 5))) samplePool
     <> NOT_FOUND
  /\ checkRoleHierarchy
       (sampleRequest "DELETE" 99 3 "99" emptyBody) samplePool
     = Respond (sendError 400 "Cannot delete your own account"
                          AUTH_UNAUTHORIZED)
  /\ checkRoleHierarchy
       (sampleRequest "DELETE" 99 3 "99" emptyBody) samplePool
     <> NOT_FOUND
  /\ (forall r, In r (Account sampleDb) -> account_id r <> 2147483648)
  /\ checkRoleHierarchy
       (sampleRequest "PUT" 4 3 "2147483648" emptyBody) samplePool
     = Respond (sendError 500 "Server error" SRVR_DATABASE_ERROR)
  /\ checkRoleHierarchy
       (sampleRequest "PUT" 4 3 "2147483648" emptyBody) samplePool
     <> NOT_FOUND.
Proof.
  assert (Habsent : forall id, 7 < id ->
            forall r, In r (Account sampleDb) -> account_id r <> id).
  { intros id Hid r Hin. simpl in Hin.
    repeat (destruct Hin as [<- | Hin]; [simpl; lia |]). destruct Hin. }
  split; [apply Habsent; lia |].
  repeat split; try solve [reflexivity | discriminate].
  apply Habsent. lia.
Qed.

(** C9 (amended). With the store reachable and no account under the target
    identifier, an identifier within the range of the integer id column,
    the gate of UPDATE and DELETE answers NOT_FOUND unless the request is a
    delete of oneself, and the gate of CHANGE_ROLE answers NOT_FOUND when
    the target is not the acting principal and the requested role parses
    and does not exceed the acting role: the self check and the promotion
    ceiling are evaluated before the lookup. For an identifier outside
    that range the lookup throws, and past the same checks both gates
    answer 500 instead. *)
Theorem C9_not_found_after_early_checks :
  (forall request db c t,
     claims request = Some c ->
     parseInt (params_id request) = Some t ->
     (method request = "DELETE" -> t <> claims_id c) ->
     (forall r, In r (Account db) -> account_id r <> t) ->
     (inIntegerColumn t = true ->
      checkRoleHierarchy request (PoolUp db) = NOT_FOUND)
     /\ (inIntegerColumn t = false ->
         checkRoleHierarchy request (PoolUp db)
         = Respond (sendError 500 "Server error" SRVR_DATABASE_ERROR)))
  /\ (forall request db c t nr,
        claims request = Some c ->
        parseInt (params_id request) = Some t ->
        parseInt (body_role (body request)) = Some nr ->
        t <> claims_id c ->
        nr <= claims_role c ->
        (forall r, In r (Account db) -> account_id r <> t) ->
        (inIntegerColumn t = true ->
         checkRoleChangeHierarchy request (PoolUp db) = NOT_FOUND)
        /\ (inIntegerColumn t = false ->
            checkRoleChangeHierarchy request (PoolUp db)
            = Respond (sendError 500
                "Server error during authorization check"
                SRVR_DATABASE_ERROR))).
Proof.
  split.
  - intros request db c t Hc Hid Hother Habsent. unfold checkRoleHierarchy.
    rewrite Hc, Hid, (not_self_delete _ _ _ Hother). split; intros Hrange.
    + rewrite (selectAccountRole_absent _ _ Hrange Habsent). reflexivity.
    + unfold selectAccountRole. rewrite Hrange. reflexivity.
  - intros request db c t nr Hc Hid Hrole Hother Hle Habsent.
    rewrite (checkRoleChangeHierarchy_other _ _ _ _ _ Hc Hid Hrole Hother).
    destruct (Z.gtb_spec nr (claims_role c)); [lia |]. split; intros Hrange.
    + rewrite (selectAccountRole_absent _ _ Hrange Habsent). reflexivity.
    + unfold selectAccountRole. rewrite Hrange. reflexivity.
Qed.

(** The sample store has no account 99. *)
Lemma sampleDb_no_99 :
  forall r, In r (Account sampleDb) -> account_id r <> 99.
Proof.
  intros r Hin. simpl in Hin.
  repeat (destruct Hin as [<- | Hin]; [discriminate |]). destruct Hin.
Defined.

(** C9 at work: Admin 4 asking role 2 for the missing account 99. *)
Lemma C9_witness :
  checkRoleChangeHierarchy
    (sampleRequest "PUT" 4 3 "99" (roleBody (JNum 2))) (PoolUp sampleDb)
  = NOT_FOUND.
Proof.
  apply (proj1 (proj2 C9_not_found_after_early_checks
           (sampleRequest "PUT" 4 3 "99" (roleBody (JNum 2))) sampleDb
           {| claims_id := 4; claims_role := 3 |} 99 2
           eq_refl eq_refl eq_refl ltac:(simpl; lia) ltac:(simpl; lia)
           sampleDb_no_99)).
  reflexivity.
Defined.

(** ** C10: what updateUser writes *)

Lemma sameOutsideUpdate_refl r : sameOutsideUpdate r r.
Proof. unfold sameOutsideUpdate. repeat split. Qed.

Lemma sameOutsideUpdate_trans r1 r2 r3 :
  sameOutsideUpdate r1 r2 -> sameOutsideUpdate r2 r3 ->
  sameOutsideUpdate r1 r3.
Proof.
  unfold sameOutsideUpdate.
  intros (A1 & A2 & A3 & A4 & A5 & A6 & A7 & A8)
         (B1 & B2 & B3 & B4 & B5 & B6 & B7 & B8).
  repeat split; congruence.
Qed.

Lemma updateFrame_refl target r : updateFrame target r r.
Proof. split; [apply sameOutsideUpdate_refl | reflexivity]. Qed.

Lemma Forall2_updateFrame_refl target rows :
  Forall2 (updateFrame target) rows rows.
Proof.
  induction rows as [| r rows IH]; constructor;
    [apply updateFrame_refl | exact IH].
Qed.

Section UpdateUserFrame.

Variable bindText : JsValue -> option string.
Variable bindBool : JsValue -> option bool.
Variable bindInt : JsValue -> option Z.

Lemma setClause_frame now values col e f :
  writtenByUpdate col = true ->
  setClause bindText bindBool bindInt now values (col, e) = Some f ->
  forall r, sameOutsideUpdate r (f r).
Proof.
  intros Hcol Hf r. destruct col; try discriminate Hcol; simpl in Hf.
  - destruct (bound values bindBool e); [| discriminate].
    injection Hf as <-. unfold sameOutsideUpdate. repeat split.
  - destruct (bound values bindBool e); [| discriminate].
    injection Hf as <-. unfold sameOutsideUpdate. repeat split.
  - destruct (bound values bindText e); [| discriminate].
    injection Hf as <-. unfold sameOutsideUpdate. repeat split.
  - destruct (boundTime bindInt now values e); [| discriminate].
    injection Hf as <-. unfold sameOutsideUpdate. repeat split.
Qed.

Lemma setClauses_frame now values clauses :
  Forall (fun clause => writtenByUpdate (fst clause) = true) clauses ->
  forall f,
    setClauses bindText bindBool bindInt now values clauses = Some f ->
    forall r, sameOutsideUpdate r (f r).
Proof.
  induction 1 as [| [col e] rest Hcol Hrest IH]; intros f Hf r;
    cbn [setClauses] in Hf.
  - injection Hf as <-. apply sameOutsideUpdate_refl.
  - destruct (setClause bindText bindBool bindInt now values (col, e))
      as [f1 |] eqn:Hf1; [| discriminate].
    destruct (setClauses bindText bindBool bindInt now values rest)
      as [g |] eqn:Hg; [| discriminate].
    injection Hf as <-.
    apply sameOutsideUpdate_trans with (r2 := f1 r).
    + exact (setClause_frame _ _ _ _ _ Hcol Hf1 r).
    + exact (IH g eq_refl (f1 r)).
Qed.

Lemma runUpdate_frame now values updates k db db' returning target :
  Forall (fun clause => writtenByUpdate (fst clause) = true) updates ->
  placeholder values k = Some (numberValue target) ->
  runUpdate bindText bindBool bindInt now values updates k (PoolUp db)
  = Updated db' returning ->
  Account_Credential db' = Account_Credential db
  /\ Forall2 (updateFrame target) (Account db) (Account db').
Proof.
  intros Hcols Hk Hrun. unfold runUpdate in Hrun. rewrite Hk in Hrun.
  destruct (setClauses bindText bindBool bindInt now values updates)
    as [f |] eqn:Hf; [| discriminate].
  destruct target as [id |]; simpl in Hrun; [| discriminate].
  destruct (inIntegerColumn id); [| discriminate].
  injection Hrun as <- _. simpl. split; [reflexivity |].
  induction (Account db) as [| r rows IH]; simpl; constructor; [| exact IH].
  unfold hasId. destruct (Z.eqb_spec (account_id r) id) as [Heq | Hne].
  - split; [exact (setClauses_frame _ _ _ Hcols f Hf r) |].
    intros Hother. exfalso. apply Hother. congruence.
  - apply updateFrame_refl.
Qed.

Lemma pushIfDefined_ok col field b :
  writtenByUpdate col = true -> builderOk b ->
  builderOk (pushIfDefined col field b).
Proof.
  intros Hcol. destruct b as [[updates values] paramCount].
  unfold pushIfDefined, builderOk. intros [Hcols Hcount].
  destruct (isDefined field); [| split; assumption].
  split.
  - apply Forall_app. split; [exact Hcols |].
    constructor; [exact Hcol | constructor].
  - rewrite length_app. simpl. lia.
Qed.

Lemma placeholder_last values v :
  placeholder (values ++ [v]) (S (length values)) = Some v.
Proof.
  unfold placeholder. rewrite nth_error_app2 by lia.
  rewrite Nat.sub_diag. reflexivity.
Qed.

(** C10. [updateUser] leaves the credentials table as it was and, in the
    account table, keeps every row's identifier, names, username, email,
    phone, role and creation time: only [Account_Status], [Email_Verified],
    [Phone_Verified] and [Updated_At] can differ, and only in a row whose
    identifier is the target's. When none of [accountStatus],
    [emailVerified], [phoneVerified] is in the body it replies with the
    400 validation error and leaves the pool as it was. This holds
    however the store reads the bound values. *)
Theorem C10_update_user_frame request pool now :
  match pool, snd (updateUser bindText bindBool bindInt request pool now) with
  | PoolDown, PoolDown => True
  | PoolUp db, PoolUp db' =>
      Account_Credential db' = Account_Credential db
      /\ Forall2 (updateFrame (parseInt (params_id request)))
                 (Account db) (Account db')
  | _, _ => False
  end
  /\ (accountStatus (body request) = JUndefined ->
      emailVerified (body request) = JUndefined ->
      phoneVerified (body request) = JUndefined ->
      updateUser bindText bindBool bindInt request pool now
      = (sendError 400 "No valid updates provided" VALD_MISSING_FIELDS, pool)).
Proof.
  split.
  - unfold updateUser.
    pose proof (pushIfDefined_ok Phone_Verified
                  (phoneVerified (body request)) _ eq_refl
                  (pushIfDefined_ok Email_Verified
                     (emailVerified (body request)) _ eq_refl
                     (pushIfDefined_ok Account_Status
                        (accountStatus (body request)) ([], [], 1%nat) eq_refl
                        (conj (Forall_nil _) eq_refl)))) as Hok.
    destruct (pushIfDefined Phone_Verified _ _)
      as [[updates values] paramCount].
    destruct Hok as [Hcols ->].
    destruct pool as [| db].
    + destruct (length updates =? 0)%nat; exact I.
    + destruct (length updates =? 0)%nat;
        [split; [reflexivity | apply Forall2_updateFrame_refl] |].
      destruct (runUpdate _ _ _ _ _ _ _ _) as [db' returning |] eqn:Hrun;
        [| split; [reflexivity | apply Forall2_updateFrame_refl]].
      assert (Hframe :
                Account_Credential db' = Account_Credential db
                /\ Forall2 (updateFrame (parseInt (params_id request)))
                           (Account db) (Account db')).
      { apply (runUpdate_frame _ _ _ _ _ _ _ _) with (3 := Hrun).
        - apply Forall_app. split; [exact Hcols |].
          constructor; [reflexivity | constructor].
        - apply placeholder_last. }
      destruct returning; exact Hframe.
  - intros Hstatus Hemail Hphone. unfold updateUser.
    rewrite Hstatus, Hemail, Hphone. reflexivity.
Qed.

End UpdateUserFrame.

(** C10 at work: an update of account 6 with an empty body. *)
Lemma C10_witness :
  updateUser acceptText acceptBool acceptInt
    (sampleRequest "PUT" 3 4 "6" emptyBody) samplePool 100
  = (sendError 400 "No valid updates provided" VALD_MISSING_FIELDS,
     samplePool).
Proof.
  apply (proj2 (C10_update_user_frame acceptText acceptBool acceptInt
                  (sampleRequest "PUT" 3 4 "6" emptyBody) samplePool 100));
    reflexivity.
Defined.

(** A suspension of account 6 at time 100: the reply, and the one row that
    changed. *)
Example updateUser_suspends_account_6 :
  let body6 :=
    {| body_role := JUndefined; accountStatus := JStr "suspended";
       emailVerified := JUndefined; phoneVerified := JBool true |} in
  let result :=
    updateUser acceptText acceptBool acceptInt
      (sampleRequest "PUT" 3 4 "6" body6) samplePool 100 in
  fst result
  = sendSuccess
      {| uu_id := 6; uu_firstName := "mod"; uu_lastName := "Doe";
         uu_username := "mod"; uu_email := "mod@example.org";
         uu_accountStatus := "suspended"; uu_emailVerified := false;
         uu_phoneVerified := true; uu_updatedAt := 100 |}
      "User updated successfully"
  /\ match snd result with
     | PoolUp db' =>
         map account_role (Account db') = map account_role (Account sampleDb)
         /\ map account_status (Account db')
            = ["active"; "active"; "active"; "active"; "active";
               "suspended"; "active"]
     | PoolDown => False
     end.
Proof. vm_compute. repeat split. Qed.

(** * Further properties of the middleware, the controllers and the routes *)

(** ** The role gates *)

(** X1. Each role gate passes exactly the requests whose claims carry a
    role of at least 3 (Admin), at least 4 (Super Admin), exactly 5
    (Owner); a request the Owner gate passes is passed by the Super Admin
    gate, and one the Super Admin gate passes by the Admin gate; a gate
    that passes hands the request on unchanged. *)
Theorem X1_role_gates_ladder request :
  (requireAdmin request = Next request
     <-> exists c, claims request = Some c /\ 3 <= claims_role c)
  /\ (requireSuperAdmin request = Next request
        <-> exists c, claims request = Some c /\ 4 <= claims_role c)
  /\ (requireOwner request = Next request
        <-> exists c, claims request = Some c /\ claims_role c = 5)
  /\ (forall r, requireOwner request = Next r ->
        requireSuperAdmin request = Next r)
  /\ (forall r, requireSuperAdmin request = Next r ->
        requireAdmin request = Next r)
  /\ (forall r, requireAdmin request = Next r -> r = request).
Proof.
  unfold requireAdmin, requireSuperAdmin, requireOwner,
    UserRole.ADMIN, UserRole.SUPER_ADMIN, UserRole.OWNER.
  destruct (claims request) as [c |].
  - destruct (Z.ltb_spec (claims_role c) 3);
      destruct (Z.ltb_spec (claims_role c) 4);
      destruct (Z.eqb_spec (claims_role c) 5); simpl; try lia;
      repeat split;
      try (intros Hex; try discriminate Hex;
           try (destruct Hex as (c' & [= <-] & Hrole); lia);
           try (exists c; split; [reflexivity | lia]);
           reflexivity);
      try (intros r Hr; try discriminate Hr; congruence).
  - repeat split;
      try (intros Hex; try discriminate Hex;
           destruct Hex as (c' & Hc' & _); discriminate Hc');
      intros r Hr; discriminate Hr.
Qed.

(** X1 at work: the Owner 1 passes the Super Admin gate. *)
Lemma X1_witness :
  requireSuperAdmin (sampleRequest "PUT" 1 5 "2" emptyBody)
  = Next (sampleRequest "PUT" 1 5 "2" emptyBody).
Proof.
  apply (proj1 (proj2 (proj2 (proj2
           (X1_role_gates_ladder (sampleRequest "PUT" 1 5 "2" emptyBody)))))).
  reflexivity.
Defined.

(** ** What a passing gate has checked *)

Lemma checkRoleHierarchy_next_inv request pool r' :
  checkRoleHierarchy request pool = Next r' ->
  exists c t tr rest,
    claims request = Some c
    /\ parseInt (params_id request) = Some t
    /\ selectAccountRole pool t = Rows (tr :: rest)
    /\ tr < claims_role c
    /\ (method request = "DELETE" -> t <> claims_id c)
    /\ r' = setTargetUserRole request tr.
Proof.
  unfold checkRoleHierarchy. intros Hnext.
  destruct (claims request) as [c |]; [| discriminate].
  destruct (parseInt (params_id request)) as [t |]; [| discriminate].
  destruct (String.eqb_spec (method request) "DELETE") as [Hverb | Hverb];
    destruct (Z.eqb_spec t (claims_id c)) as [Hself | Hother];
    simpl in Hnext; try discriminate;
    (destruct (selectAccountRole pool t) as [[| tr rest] |] eqn:Hrow;
     try discriminate;
     destruct (Z.leb_spec (claims_role c) tr); try discriminate;
     injection Hnext as <-;
     exists c, t, tr, rest; repeat split; try assumption; try reflexivity;
     intros; congruence).
Qed.

Lemma checkRoleChangeHierarchy_next_inv request pool r' :
  checkRoleChangeHierarchy request pool = Next r' ->
  r' = request
  /\ exists c t nr cur rest,
       claims request = Some c
       /\ parseInt (params_id request) = Some t
       /\ parseInt (body_role (body request)) = Some nr
       /\ t <> claims_id c
       /\ nr <= claims_role c
       /\ selectAccountRole pool t = Rows (cur :: rest)
       /\ cur < claims_role c.
Proof.
  unfold checkRoleChangeHierarchy. intros Hnext.
  destruct (claims request) as [c |]; [| discriminate].
  destruct (parseInt (params_id request)) as [t |];
    destruct (parseInt (body_role (body request))) as [nr |];
    try discriminate.
  destruct (Z.eqb_spec t (claims_id c)) as [Hself | Hother];
    [discriminate |].
  destruct (Z.gtb_spec nr (claims_role c)) as [Hgt | Hle]; [discriminate |].
  destruct (selectAccountRole pool t) as [[| cur rest] |] eqn:Hrow;
    try discriminate.
  destruct (Z.geb_spec cur (claims_role c)) as [Hge | Hlt]; [discriminate |].
  destruct ((claims_role c =? 3) && (nr >? 3)); [discriminate |].
  injection Hnext as <-. split; [reflexivity |].
  exists c, t, nr, cur, rest. repeat split; reflexivity || assumption || lia.
Qed.

(** X4. [checkRoleHierarchy] calls [next()] exactly when the claims are
    present, the identifier parses, the request is not a delete of oneself,
    and the lookup finds a first row whose role is strictly below the
    acting role; it then hands on the request with that role stored in
    [targetUserRole] and nothing else changed. *)
Theorem X4_hierarchy_gate_passes_iff request pool r' :
  checkRoleHierarchy request pool = Next r'
  <-> exists c t tr rest,
        claims request = Some c
        /\ parseInt (params_id request) = Some t
        /\ selectAccountRole pool t = Rows (tr :: rest)
        /\ tr < claims_role c
        /\ (method request = "DELETE" -> t <> claims_id c)
        /\ r' = setTargetUserRole request tr.
Proof.
  split.
  - apply checkRoleHierarchy_next_inv.
  - intros (c & t & tr & rest & Hc & Hid & Hrow & Hlt & Hother & ->).
    rewrite (checkRoleHierarchy_found _ _ _ _ _ _ Hc Hid Hother Hrow).
    destruct (Z.leb_spec (claims_role c) tr); [lia | reflexivity].
Qed.

(** X4 at work: Super Admin 3 updating account 6 leaves the gate with the
    role 2 stored. *)
Lemma X4_witness :
  checkRoleHierarchy (sampleRequest "PUT" 3 4 "6" emptyBody) samplePool
  = Next (setTargetUserRole (sampleRequest "PUT" 3 4 "6" emptyBody) 2).
Proof.
  apply (proj2 (X4_hierarchy_gate_passes_iff
                  (sampleRequest "PUT" 3 4 "6" emptyBody) samplePool _)).
  exists {| claims_id := 3; claims_role := 4 |}, 6, 2, [].
  repeat split; first [reflexivity | simpl; lia | intros _; simpl; lia].
Defined.

Lemma checkRoleChangeHierarchy_passes request pool c t nr cur rest :
  claims request = Some c ->
  parseInt (params_id request) = Some t ->
  parseInt (body_role (body request)) = Some nr ->
  t <> claims_id c ->
  nr <= claims_role c ->
  selectAccountRole pool t = Rows (cur :: rest) ->
  cur < claims_role c ->
  checkRoleChangeHierarchy request pool = Next request.
Proof.
  intros Hc Hid Hrole Hother Hle Hrow Hlt.
  rewrite (checkRoleChangeHierarchy_other _ _ _ _ _ Hc Hid Hrole Hother).
  rewrite Hrow.
  destruct (Z.gtb_spec nr (claims_role c)); [lia |].
  destruct (Z.geb_spec cur (claims_role c)); [lia |].
  destruct (Z.eqb_spec (claims_role c) 3);
    destruct (Z.gtb_spec nr 3); simpl; try lia; reflexivity.
Qed.

(** X5. [checkRoleChangeHierarchy] calls [next()] exactly when the target
    is another principal that the lookup finds with a role strictly below
    the acting role and the requested role is a number not above the acting
    role; it hands the request on unchanged. The rule for acting role 3
    adds nothing to these conditions. *)
Theorem X5_role_change_gate_passes_iff request pool r' :
  checkRoleChangeHierarchy request pool = Next r'
  <-> r' = request
      /\ exists c t nr cur rest,
           claims request = Some c
           /\ parseInt (params_id request) = Some t
           /\ parseInt (body_role (body request)) = Some nr
           /\ t <> claims_id c
           /\ nr <= claims_role c
           /\ selectAccountRole pool t = Rows (cur :: rest)
           /\ cur < claims_role c.
Proof.
  split.
  - apply checkRoleChangeHierarchy_next_inv.
  - intros (-> & c & t & nr & cur & rest & Hc & Hid & Hrole & Hother & Hle
            & Hrow & Hlt).
    exact (checkRoleChangeHierarchy_passes _ _ _ _ _ _ _
             Hc Hid Hrole Hother Hle Hrow Hlt).
Qed.

(** X5 at work: Super Admin 3 moving account 6 to role 3. *)
Lemma X5_witness :
  checkRoleChangeHierarchy
    (sampleRequest "PUT" 3 4 "6" (roleBody (JNum 3))) samplePool
  = Next (sampleRequest "PUT" 3 4 "6" (roleBody (JNum 3))).
Proof.
  apply (proj2 (X5_role_change_gate_passes_iff
                  (sampleRequest "PUT" 3 4 "6" (roleBody (JNum 3)))
                  samplePool _)).
  split; [reflexivity |].
  exists {| claims_id := 3; claims_role := 4 |}, 6, 3, 2, [].
  repeat split; first [reflexivity | simpl; lia | intros _; simpl; lia].
Defined.

(** X6. With the store unreachable neither hierarchy gate calls [next()]:
    past its checks on the request itself, [checkRoleHierarchy] replies
    500 "Server error" and [checkRoleChangeHierarchy] replies 500 "Server
    error during authorization check". *)
Theorem X6_gates_fail_closed request :
  (forall r, checkRoleHierarchy request PoolDown <> Next r)
  /\ (forall r, checkRoleChangeHierarchy request PoolDown <> Next r)
  /\ (forall c t,
        claims request = Some c ->
        parseInt (params_id request) = Some t ->
        (method request = "DELETE" -> t <> claims_id c) ->
        checkRoleHierarchy request PoolDown
        = Respond (sendError 500 "Server error" SRVR_DATABASE_ERROR))
  /\ (forall c t nr,
        claims request = Some c ->
        parseInt (params_id request) = Some t ->
        parseInt (body_role (body request)) = Some nr ->
        t <> claims_id c ->
        nr <= claims_role c ->
        checkRoleChangeHierarchy request PoolDown
        = Respond (sendError 500 "Server error during authorization check"
                             SRVR_DATABASE_ERROR)).
Proof.
  repeat split.
  - intros r Hnext.
    destruct (checkRoleHierarchy_next_inv _ _ _ Hnext)
      as (c & t & tr & rest & _ & _ & Hrow & _). discriminate Hrow.
  - intros r Hnext.
    destruct (checkRoleChangeHierarchy_next_inv _ _ _ Hnext)
      as (_ & c & t & nr & cur & rest & _ & _ & _ & _ & _ & Hrow & _).
    discriminate Hrow.
  - intros c t Hc Hid Hother. unfold checkRoleHierarchy.
    rewrite Hc, Hid, (not_self_delete _ _ _ Hother). reflexivity.
  - intros c t nr Hc Hid Hrole Hother Hle.
    rewrite (checkRoleChangeHierarchy_other _ _ _ _ _ Hc Hid Hrole Hother).
    destruct (Z.gtb_spec nr (claims_role c)); [lia | reflexivity].
Qed.

(** X6 at work: Super Admin 3 updating account 6 while the store is down. *)
Lemma X6_witness :
  checkRoleHierarchy (sampleRequest "PUT" 3 4 "6" emptyBody) PoolDown
  = Respond (sendError 500 "Server error" SRVR_DATABASE_ERROR).
Proof.
  apply (proj1 (proj2 (proj2 (X6_gates_fail_closed
           (sampleRequest "PUT" 3 4 "6" emptyBody))))
           {| claims_id := 3; claims_role := 4 |} 6 eq_refl eq_refl).
  intros _; simpl; lia.
Defined.

(** X7. The gates are ordered by strictness: a request that the
    role-change gate passes is passed by the update/delete gate on the same
    store, and whenever the update/delete gate passes, [canModifyUser]
    holds of the acting role and the role the gate stored. *)
Theorem X7_gates_ordered_by_strictness request pool :
  (forall r, checkRoleChangeHierarchy request pool = Next r ->
     exists r', checkRoleHierarchy request pool = Next r')
  /\ (forall r', checkRoleHierarchy request pool = Next r' ->
        exists c tr,
          claims request = Some c
          /\ targetUserRole r' = Some tr
          /\ canModifyUser (claims_role c) tr = true).
Proof.
  split.
  - intros r Hnext.
    destruct (checkRoleChangeHierarchy_next_inv _ _ _ Hnext)
      as (_ & c & t & nr & cur & rest & Hc & Hid & _ & Hother & _ & Hrow
          & Hlt).
    exists (setTargetUserRole request cur).
    rewrite (checkRoleHierarchy_found _ _ _ _ _ _ Hc Hid
               (fun _ => Hother) Hrow).
    destruct (Z.leb_spec (claims_role c) cur); [lia | reflexivity].
  - intros r' Hnext.
    destruct (checkRoleHierarchy_next_inv _ _ _ Hnext)
      as (c & t & tr & rest & Hc & _ & _ & Hlt & _ & ->).
    exists c, tr. repeat split; [exact Hc |].
    unfold canModifyUser.
    destruct (claims_role c =? UserRole.OWNER); [reflexivity |].
    apply Z.gtb_lt. exact Hlt.
Qed.

(** X7 at work: the role change of account 6 by Super Admin 3 also passes
    the update gate. *)
Lemma X7_witness :
  exists r',
    checkRoleHierarchy
      (sampleRequest "PUT" 3 4 "6" (roleBody (JNum 3))) samplePool = Next r'.
Proof.
  apply (proj1 (X7_gates_ordered_by_strictness
                  (sampleRequest "PUT" 3 4 "6" (roleBody (JNum 3)))
                  samplePool)
           (sampleRequest "PUT" 3 4 "6" (roleBody (JNum 3)))).
  reflexivity.
Defined.

(** ** The stricter role check *)

(** X3. [validateRoleAssignment] passes a request exactly when its body has
    no role, or its role is a number in 1..5 strictly below the acting
    role. It is stricter than [validateRoleCreation]: a request with a
    role that it passes is passed by the creation check, while a role equal
    to the acting role passes the creation check and is refused here
    with 403. *)
Theorem X3_role_assignment_stricter_than_creation request c :
  claims request = Some c ->
  (validateRoleAssignment request = Next request
     <-> body_role (body request) = JUndefined
         \/ exists r,
              parseInt (body_role (body request)) = Some r
              /\ 1 <= r <= 5 /\ r < claims_role c)
  /\ (body_role (body request) <> JUndefined ->
      validateRoleAssignment request = Next request ->
      validateRoleCreation request = Next request)
  /\ (parseInt (body_role (body request)) = Some (claims_role c) ->
      1 <= claims_role c <= 5 ->
      validateRoleCreation request = Next request
      /\ validateRoleAssignment request
         = Respond (sendError 403 "Can only assign roles lower than your own"
                              AUTH_UNAUTHORIZED)).
Proof.
  intros Hc. unfold validateRoleAssignment, validateRoleCreation. rewrite Hc.
  destruct (isDefined (body_role (body request))) eqn:Hdefined;
    simpl negb; cbv iota.
  - assert (Hdef : body_role (body request) <> JUndefined).
    { intros Heq. rewrite Heq in Hdefined. discriminate Hdefined. }
    destruct (parseInt (body_role (body request))) as [r |] eqn:Hparse.
    + destruct (Z.ltb_spec r 1); destruct (Z.gtb_spec r 5);
        destruct (Z.geb_spec r (claims_role c));
        destruct (Z.gtb_spec r (claims_role c)); simpl; try lia;
        (split; [| split]);
        try (intros [= ->] Hrange;
             first [lia | split; reflexivity]);
        try (intros _ Hnext; first [discriminate Hnext | reflexivity]);
        (split;
         [ intros Hnext; first [discriminate Hnext | right; exists r;
                                 repeat split; reflexivity || lia]
         | intros [Hundef | (r' & [= <-] & Hlo & Hlt)];
           first [contradiction | lia | reflexivity] ]).
    + split; [| split].
      * split; [discriminate |].
        intros [Hundef | (r' & Hsome & _)];
          [contradiction | discriminate Hsome].
      * intros _ Hnext. discriminate Hnext.
      * intros Hsome. discriminate Hsome.
  - assert (Hundef : body_role (body request) = JUndefined)
      by (destruct (body_role (body request)); try discriminate Hdefined;
          reflexivity).
    rewrite Hundef. split; [| split].
    + split; [left; reflexivity | reflexivity].
    + intros Hne. contradiction Hne. reflexivity.
    + intros Hsome. discriminate Hsome.
Qed.

(** X3 at work: an Admin asking for role 3 passes creation, not
    assignment. *)
Lemma X3_witness :
  validateRoleCreation (sampleRequest "PUT" 4 3 "6" (roleBody (JNum 3)))
  = Next (sampleRequest "PUT" 4 3 "6" (roleBody (JNum 3)))
  /\ validateRoleAssignment (sampleRequest "PUT" 4 3 "6" (roleBody (JNum 3)))
     = Respond (sendError 403 "Can only assign roles lower than your own"
                          AUTH_UNAUTHORIZED).
Proof.
  apply (proj2 (proj2 (X3_role_assignment_stricter_than_creation
           (sampleRequest "PUT" 4 3 "6" (roleBody (JNum 3)))
           {| claims_id := 4; claims_role := 3 |} eq_refl))).
  - reflexivity.
  - simpl; lia.
Defined.

(** ** The gated routes *)

Lemma fieldInt_not_empty v n : fieldInt v = Some n -> fieldIsEmpty v = false.
Proof.
  destruct v as [| | | b | z | s | s]; try discriminate; try reflexivity;
    (destruct s; [discriminate | reflexivity]).
Qed.

(** The validation chain passes exactly the integer identifiers with an
    integer role in 1..5, and hands them on as numbers. *)
Lemma validateAdminRoleChange_next request r' :
  validateAdminRoleChange request = Next r'
  <-> exists t nr,
        fieldInt (params_id request) = Some t
        /\ fieldInt (body_role (body request)) = Some nr
        /\ 1 <= nr <= 5
        /\ r' = {| method := method request;
                   params_id := JNum t;
                   claims := claims request;
                   body := {| body_role := JNum nr;
                              accountStatus := accountStatus (body request);
                              emailVerified := emailVerified (body request);
                              phoneVerified := phoneVerified (body request) |};
                   targetUserRole := targetUserRole request |}.
Proof.
  unfold validateAdminRoleChange, isInt, isIntBetween, toInt.
  destruct (fieldInt (params_id request)) as [t |] eqn:Hid;
    destruct (fieldInt (body_role (body request))) as [nr |] eqn:Hrole.
  - rewrite (fieldInt_not_empty _ _ Hid), (fieldInt_not_empty _ _ Hrole).
    destruct (Z.leb_spec 1 nr); destruct (Z.leb_spec nr 5); simpl;
      (split;
       [ intros Hnext; try discriminate Hnext; injection Hnext as <-;
         exists t, nr; repeat split; assumption || reflexivity
       | intros (t' & nr' & [= <-] & [= <-] & Hrange & ->);
         reflexivity || lia ]).
  - split; [| intros (t' & nr' & _ & Hnone & _); discriminate Hnone].
    destruct (fieldIsEmpty (params_id request));
      destruct (fieldIsEmpty (body_role (body request))); discriminate.
  - split; [| intros (t' & nr' & Hnone & _); discriminate Hnone].
    destruct (fieldIsEmpty (params_id request));
      destruct (fieldIsEmpty (body_role (body request)));
      destruct ((1 <=? nr) && (nr <=? 5)); discriminate.
  - split; [| intros (t' & nr' & Hnone & _); discriminate Hnone].
    destruct (fieldIsEmpty (params_id request));
      destruct (fieldIsEmpty (body_role (body request))); discriminate.
Qed.

Lemma putUserRoleGate_next_inv request pool r' :
  putUserRoleGate request pool = Next r' ->
  exists c number t nr cur rest,
    claims request = Some c
    /\ 3 <= claims_role c
    /\ fieldInt (params_id request) = Some number
    /\ parseInt (JNum number) = Some t
    /\ fieldInt (body_role (body request)) = Some nr
    /\ 1 <= nr <= 5
    /\ nr <= claims_role c
    /\ t <> claims_id c
    /\ selectAccountRole pool t = Rows (cur :: rest)
    /\ cur < claims_role c
    /\ r' = {| method := method request;
               params_id := JNum number;
               claims := claims request;
               body := {| body_role := JNum nr;
                          accountStatus := accountStatus (body request);
                          emailVerified := emailVerified (body request);
                          phoneVerified := phoneVerified (body request) |};
               targetUserRole := targetUserRole request |}.
Proof.
  unfold putUserRoleGate, requireAdmin, UserRole.ADMIN. intros Hnext.
  destruct (claims request) as [c |] eqn:Hc; [| discriminate].
  destruct (Z.ltb_spec (claims_role c) 3) as [Hlow | Hadmin];
    [discriminate |].
  simpl in Hnext.
  destruct (validateAdminRoleChange request) as [r2 | |] eqn:Hvalid;
    try discriminate.
  simpl in Hnext.
  apply validateAdminRoleChange_next in Hvalid.
  destruct Hvalid as (number & nr & Hid & Hrole & Hrange & ->).
  destruct (checkRoleChangeHierarchy_next_inv _ _ _ Hnext)
    as (-> & c' & t & nr' & cur & rest & Hc' & Hid' & Hrole' & Hother & Hle
        & Hrow & Hlt).
  simpl in Hc', Hid', Hrole'. rewrite Hc in Hc'. injection Hc' as <-.
  rewrite parseInt_number_small in Hrole' by lia. injection Hrole' as <-.
  exists c, number, t, nr, cur, rest.
  repeat split; first [assumption | lia | rewrite ?Hc; reflexivity].
Qed.

(** X8. The middleware of the role-change route passes a request exactly
    when the acting role is at least 3, the identifier and the role are
    integers, the role lies in 1..5 and does not exceed the acting role,
    and the target the gate reads back from the sanitized identifier is
    another principal found with a role strictly below the acting role.
    The controller then receives the identifier and the role as numbers.
    The target is the identifier itself while it is below 2^53 in
    magnitude. *)
Theorem X8_role_change_route_passes_iff request pool r' :
  (putUserRoleGate request pool = Next r'
   <-> exists c number t nr cur rest,
         claims request = Some c
         /\ 3 <= claims_role c
         /\ fieldInt (params_id request) = Some number
         /\ parseInt (JNum number) = Some t
         /\ fieldInt (body_role (body request)) = Some nr
         /\ 1 <= nr <= 5
         /\ nr <= claims_role c
         /\ t <> claims_id c
         /\ selectAccountRole pool t = Rows (cur :: rest)
         /\ cur < claims_role c
         /\ r' = {| method := method request;
                    params_id := JNum number;
                    claims := claims request;
                    body :=
                      {| body_role := JNum nr;
                         accountStatus := accountStatus (body request);
                         emailVerified := emailVerified (body request);
                         phoneVerified := phoneVerified (body request) |};
                    targetUserRole := targetUserRole request |})
  /\ (forall number,
        Z.abs number < 2 ^ 53 -> parseInt (JNum number) = Some number).
Proof.
  split; [| exact parseInt_number_small].
  split.
  - apply putUserRoleGate_next_inv.
  - intros (c & number & t & nr & cur & rest & Hc & Hadmin & Hid & Hread
            & Hrole & Hrange & Hle & Hother & Hrow & Hlt & ->).
    assert (Hadm : requireAdmin request = Next request).
    { unfold requireAdmin, UserRole.ADMIN. rewrite Hc.
      destruct (Z.ltb_spec (claims_role c) 3); [lia | reflexivity]. }
    unfold putUserRoleGate. rewrite Hadm. simpl.
    rewrite (proj2 (validateAdminRoleChange_next request _)
               (ex_intro _ number (ex_intro _ nr
                  (conj Hid (conj Hrole (conj Hrange eq_refl)))))).
    simpl.
    apply checkRoleChangeHierarchy_passes
      with (c := c) (t := t) (nr := nr) (cur := cur) (rest := rest);
      simpl; try assumption; try reflexivity.
    apply parseInt_number_small. lia.
Qed.

(** X8 at work: Super Admin 3 sends the role "3" for account "6". *)
Lemma X8_witness :
  putUserRoleGate (sampleRequest "PUT" 3 4 "6" (roleBody (JStr "3")))
    samplePool
  = Next {| method := "PUT"; params_id := JNum 6;
            claims := Some {| claims_id := 3; claims_role := 4 |};
            body := roleBody (JNum 3); targetUserRole := None |}.
Proof.
  apply (proj2 (proj1 (X8_role_change_route_passes_iff
                  (sampleRequest "PUT" 3 4 "6" (roleBody (JStr "3")))
                  samplePool _))).
  exists {| claims_id := 3; claims_role := 4 |}, 6, 6, 3, 2, [].
  repeat split; first [reflexivity | simpl; lia | intros _; simpl; lia].
Defined.

(** X2. On the gated routes the Admin gate runs first, so the hierarchy
    gates never meet a request without claims: the middleware of the
    update, delete and role-change routes never lets an exception escape,
    answers 401 when the claims are missing and 403 when the acting role
    is below 3, whatever the rest of the request and the store. *)
Theorem X2_routes_reject_before_hierarchy request pool :
  userGate request pool <> Raise
  /\ putUserRoleGate request pool <> Raise
  /\ (claims request = None ->
      userGate request pool
      = Respond (sendError 401 "Authentication required" AUTH_UNAUTHORIZED)
      /\ putUserRoleGate request pool
         = Respond (sendError 401 "Authentication required"
                              AUTH_UNAUTHORIZED))
  /\ (forall c, claims request = Some c -> claims_role c < 3 ->
      userGate request pool
      = Respond (sendError 403 "Admin access required" AUTH_UNAUTHORIZED)
      /\ putUserRoleGate request pool
         = Respond (sendError 403 "Admin access required" AUTH_UNAUTHORIZED)).
Proof.
  unfold userGate, putUserRoleGate, requireAdmin, UserRole.ADMIN.
  destruct (claims request) as [c |] eqn:Hc.
  - destruct (Z.ltb_spec (claims_role c) 3) as [Hlow | Hadmin]; simpl.
    + repeat split; try discriminate.
      all: intros c' [= <-] _; reflexivity.
    + split; [| split; [| split]].
      * unfold checkRoleHierarchy. rewrite Hc.
        destruct (parseInt (params_id request)) as [t |]; [| discriminate].
        destruct (String.eqb (method request) "DELETE" && (t =? claims_id c));
          [discriminate |].
        destruct (selectAccountRole pool t) as [[| tr rest] |];
          try discriminate.
        destruct (claims_role c <=? tr); discriminate.
      * destruct (validateAdminRoleChange request) as [r2 | |] eqn:Hvalid;
          simpl; try discriminate.
        -- apply validateAdminRoleChange_next in Hvalid.
           destruct Hvalid as (number & role & _ & _ & _ & ->).
           unfold checkRoleChangeHierarchy. simpl. rewrite Hc.
           destruct (parseInt (JNum number)) as [t |];
             destruct (parseInt (JNum role)) as [nr |]; try discriminate.
           destruct (t =? claims_id c); [discriminate |].
           destruct (nr >? claims_role c); [discriminate |].
           destruct (selectAccountRole pool t) as [[| cur rest] |];
             try discriminate.
           destruct (cur >=? claims_role c); [discriminate |].
           destruct ((claims_role c =? 3) && (nr >? 3)); discriminate.
        -- unfold validateAdminRoleChange in Hvalid.
           destruct (_ ++ _)%list; discriminate Hvalid.
      * discriminate.
      * intros c' [= <-] Hlow. lia.
  - simpl. repeat split; discriminate.
Qed.

(** X2 at work: a moderator (role 2) asking for a role change. *)
Lemma X2_witness :
  userGate (sampleRequest "PUT" 6 2 "7" (roleBody (JNum 1))) samplePool
  = Respond (sendError 403 "Admin access required" AUTH_UNAUTHORIZED)
  /\ putUserRoleGate (sampleRequest "PUT" 6 2 "7" (roleBody (JNum 1)))
       samplePool
     = Respond (sendError 403 "Admin access required" AUTH_UNAUTHORIZED).
Proof.
  apply (proj2 (proj2 (proj2 (X2_routes_reject_before_hierarchy
           (sampleRequest "PUT" 6 2 "7" (roleBody (JNum 1))) samplePool)))
           {| claims_id := 6; claims_role := 2 |} eq_refl).
  simpl; lia.
Defined.

(** ** deleteUser *)

Lemma rowsRelated_refl (R : AccountRow -> AccountRow -> Prop) pool :
  (forall r, R r r) -> rowsRelated R pool pool.
Proof.
  intros Hrefl. destruct pool as [| db]; [exact I |].
  split; [reflexivity |].
  induction (Account db) as [| r rows IH]; constructor; auto.
Qed.

Lemma Forall2_map_r_in (R : AccountRow -> AccountRow -> Prop)
  (f : AccountRow -> AccountRow) rows :
  (forall r, In r rows -> R r (f r)) -> Forall2 R rows (map f rows).
Proof.
  induction rows as [| r rows IH]; intros H; simpl; constructor.
  - apply H. left. reflexivity.
  - apply IH. intros r' Hin. apply H. right. exact Hin.
Qed.

Lemma notYetDeleted_spec id r :
  notYetDeleted id r = true
  <-> account_id r = id /\ account_status r <> "deleted".
Proof.
  unfold notYetDeleted, hasId.
  destruct (Z.eqb_spec (account_id r) id);
    destruct (String.eqb_spec (account_status r) "deleted"); simpl;
    split; intros H; try discriminate; try (split; assumption);
    destruct H; contradiction.
Qed.

(** [deleteUser], case by case. *)
Lemma deleteUser_cases request pool now :
  deleteUser request pool now
  = match pool, parseInt (params_id request) with
    | PoolUp db, Some t =>
        if inIntegerColumn t
        then
          (match filter (notYetDeleted t) (Account db) with
           | [] => sentError 404 "User not found or already deleted"
                             USER_NOT_FOUND
           | _ :: _ => sentSuccess tt "User deleted successfully"
           end,
           PoolUp
             {| Account :=
                  map (fun r => if notYetDeleted t r
                                then markDeleted now r else r)
                      (Account db);
                Account_Credential := Account_Credential db |})
        else (sentError 500 "Failed to delete user" SRVR_DATABASE_ERROR,
              pool)
    | _, _ =>
        (sentError 500 "Failed to delete user" SRVR_DATABASE_ERROR, pool)
    end.
Proof.
  unfold deleteUser, runSoftDelete.
  destruct pool as [| db]; [reflexivity |].
  destruct (parseInt (params_id request)) as [t |]; [| reflexivity].
  simpl. destruct (inIntegerColumn t); [| reflexivity].
  destruct (filter (notYetDeleted t) (Account db)); reflexivity.
Qed.

Lemma deleteUser_frame request pool now :
  rowsRelated (softDeleteFrame now (parseInt (params_id request)))
    pool (snd (deleteUser request pool now)).
Proof.
  rewrite deleteUser_cases.
  assert (Hsame : rowsRelated
                    (softDeleteFrame now (parseInt (params_id request)))
                    pool pool)
    by (apply rowsRelated_refl; intros r; left; reflexivity).
  destruct pool as [| db]; [exact I |].
  destruct (parseInt (params_id request)) as [t |]; [| exact Hsame].
  destruct (inIntegerColumn t); [| exact Hsame].
  split; [reflexivity |].
  apply Forall2_map_r_in. intros r _.
  destruct (notYetDeleted t r) eqn:Hlive; [| left; reflexivity].
  apply notYetDeleted_spec in Hlive. destruct Hlive as [<- Hstatus].
  right. repeat split; assumption || reflexivity.
Qed.

(** X9. [deleteUser] is a soft delete: it removes no row and touches no
    credentials; a row either stays as it was or, when it is a row of the
    target that was not deleted yet, gets the status "deleted" and the
    current time as its update time, every other column kept. *)
Theorem X9_delete_user_is_soft request pool now :
  rowsRelated (softDeleteFrame now (parseInt (params_id request)))
    pool (snd (deleteUser request pool now))
  /\ (forall db db',
        pool = PoolUp db ->
        snd (deleteUser request pool now) = PoolUp db' ->
        length (Account db') = length (Account db)
        /\ map account_id (Account db') = map account_id (Account db)
        /\ map account_role (Account db') = map account_role (Account db)).
Proof.
  pose proof (deleteUser_frame request pool now) as Hframe.
  split; [exact Hframe |].
  intros db db' -> Hsnd. rewrite Hsnd in Hframe.
  destruct Hframe as [_ Hrows].
  induction Hrows as [| r r' rows rows' Hr _ IH]; [repeat split |].
  destruct IH as (Hlen & Hids & Hroles). simpl.
  destruct Hr as [-> | (_ & _ & ->)]; simpl;
    repeat split; congruence.
Qed.

(** X9 at work: Owner 1 deleting account 7 keeps the seven rows. *)
Lemma X9_witness :
  length (Account
    {| Account :=
         map (fun r => if notYetDeleted 7 r then markDeleted 100 r else r)
             (Account sampleDb);
       Account_Credential := Account_Credential sampleDb |})
  = length (Account sampleDb).
Proof.
  apply (proj2 (X9_delete_user_is_soft
                  (sampleRequest "DELETE" 1 5 "7" emptyBody) samplePool 100)
           sampleDb _ eq_refl eq_refl).
Defined.

(** X10. With the store reachable and a numeric identifier within the
    range of the integer id column, [deleteUser] succeeds exactly when
    some row of the target is not deleted yet and replies 404 "User not
    found or already deleted" otherwise; without a numeric identifier,
    with one outside that range, or with the store down, it replies 500
    and leaves the pool as it was. *)
Theorem X10_delete_user_replies request pool now :
  (forall db t,
     pool = PoolUp db ->
     parseInt (params_id request) = Some t ->
     inIntegerColumn t = true ->
     (fst (deleteUser request pool now)
      = sentSuccess tt "User deleted successfully"
      <-> exists r, In r (Account db) /\ account_id r = t
                    /\ account_status r <> "deleted")
     /\ (fst (deleteUser request pool now)
         <> sentSuccess tt "User deleted successfully" ->
         fst (deleteUser request pool now)
         = sentError 404 "User not found or already deleted" USER_NOT_FOUND))
  /\ (pool = PoolDown
      \/ parseInt (params_id request) = None
      \/ (exists t, parseInt (params_id request) = Some t
                    /\ inIntegerColumn t = false) ->
      deleteUser request pool now
      = (sentError 500 "Failed to delete user" SRVR_DATABASE_ERROR, pool)).
Proof.
  rewrite deleteUser_cases. split.
  - intros db t -> -> ->. simpl.
    destruct (filter (notYetDeleted t) (Account db)) as [| r live] eqn:Hlive.
    + split; [| intros _; reflexivity].
      split; [discriminate |].
      intros (r & Hin & Hid & Hstatus). exfalso.
      assert (Hr : In r (filter (notYetDeleted t) (Account db))).
      { apply filter_In. split; [exact Hin |].
        apply notYetDeleted_spec. split; assumption. }
      rewrite Hlive in Hr. destruct Hr.
    + split; [| intros Hne; contradiction Hne; reflexivity].
      split; [| reflexivity]. intros _. exists r.
      assert (Hr : In r (filter (notYetDeleted t) (Account db)))
        by (rewrite Hlive; left; reflexivity).
      apply filter_In in Hr. destruct Hr as [Hin Hr].
      apply notYetDeleted_spec in Hr. destruct Hr. repeat split; assumption.
  - intros [-> | [-> | (t & -> & ->)]]; [reflexivity | |];
      destruct pool; reflexivity.
Qed.

(** X10 at work: account 7 exists and is active, so its deletion
    succeeds. *)
Lemma X10_witness :
  fst (deleteUser (sampleRequest "DELETE" 1 5 "7" emptyBody) samplePool 100)
  = sentSuccess tt "User deleted successfully"
  <-> exists r, In r (Account sampleDb) /\ account_id r = 7
                /\ account_status r <> "deleted".
Proof.
  apply (proj1 (X10_delete_user_replies
                  (sampleRequest "DELETE" 1 5 "7" emptyBody) samplePool 100)
           sampleDb 7 eq_refl eq_refl eq_refl).
Defined.

Lemma softDelete_settles now t rows :
  map (fun r => if notYetDeleted t r then markDeleted now r else r)
      (map (fun r => if notYetDeleted t r then markDeleted now r else r) rows)
  = map (fun r => if notYetDeleted t r then markDeleted now r else r) rows
  /\ filter (notYetDeleted t)
       (map (fun r => if notYetDeleted t r then markDeleted now r else r) rows)
     = [].
Proof.
  induction rows as [| r rows [IHmap IHfilter]]; [split; reflexivity |].
  simpl.
  assert (Hdone :
    notYetDeleted t (if notYetDeleted t r then markDeleted now r else r)
    = false).
  { destruct (notYetDeleted t r) eqn:Hlive; [| exact Hlive].
    unfold notYetDeleted. simpl. apply andb_false_r. }
  rewrite Hdone. split; [f_equal; exact IHmap | exact IHfilter].
Qed.

Lemma softDelete_later_keeps now later t rows :
  map (fun r => if notYetDeleted t r then markDeleted later r else r)
      (map (fun r => if notYetDeleted t r then markDeleted now r else r) rows)
  = map (fun r => if notYetDeleted t r then markDeleted now r else r) rows.
Proof.
  destruct (softDelete_settles now t rows) as [_ Hnone]. revert Hnone.
  induction rows as [| r rows IH]; [reflexivity |].
  simpl. intros Hnone.
  destruct (notYetDeleted t
              (if notYetDeleted t r then markDeleted now r else r))
    eqn:Hlive; [discriminate Hnone |].
  f_equal. apply IH. exact Hnone.
Qed.

(** X11. Deleting is settled by the first call: a second [deleteUser] for
    the same request, at any later time, leaves the store exactly as the
    first call left it; with the store reachable and a numeric identifier
    within the range of the integer id column it replies 404 "User not
    found or already deleted", and with one outside that range it replies
    500 as the first call did. *)
Theorem X11_delete_user_twice request pool now later :
  snd (deleteUser request (snd (deleteUser request pool now)) later)
  = snd (deleteUser request pool now)
  /\ (forall db t,
        pool = PoolUp db ->
        parseInt (params_id request) = Some t ->
        inIntegerColumn t = true ->
        fst (deleteUser request (snd (deleteUser request pool now)) later)
        = sentError 404 "User not found or already deleted" USER_NOT_FOUND)
  /\ (forall db t,
        pool = PoolUp db ->
        parseInt (params_id request) = Some t ->
        inIntegerColumn t = false ->
        fst (deleteUser request pool now)
        = sentError 500 "Failed to delete user" SRVR_DATABASE_ERROR
        /\ fst (deleteUser request (snd (deleteUser request pool now)) later)
           = sentError 500 "Failed to delete user" SRVR_DATABASE_ERROR).
Proof.
  rewrite (deleteUser_cases request pool now).
  destruct pool as [| db].
  - cbn [fst snd]. rewrite deleteUser_cases.
    split; [reflexivity |]. split; intros db t Hdown; discriminate Hdown.
  - destruct (parseInt (params_id request)) as [t |] eqn:Hid.
    + destruct (inIntegerColumn t) eqn:Hrange; cbn [fst snd];
        rewrite deleteUser_cases, Hid, Hrange.
      * destruct (softDelete_settles now t (Account db)) as [_ Hnone].
        cbn [fst snd Account Account_Credential].
        rewrite Hnone, softDelete_later_keeps.
        split; [reflexivity |].
        split; [intros; reflexivity |].
        intros db' t' _ [= <-] Hout. congruence.
      * split; [reflexivity |].
        split; [intros db' t' _ [= <-] Hin; congruence |].
        intros; split; reflexivity.
    + cbn [fst snd]. rewrite deleteUser_cases, Hid.
      split; [reflexivity |].
      split; intros db' t _ Hnone; discriminate Hnone.
Qed.

(** X11 at work: the second deletion of account 7 is answered with 404. *)
Lemma X11_witness :
  fst (deleteUser (sampleRequest "DELETE" 1 5 "7" emptyBody)
         (snd (deleteUser (sampleRequest "DELETE" 1 5 "7" emptyBody)
                 samplePool 100)) 200)
  = sentError 404 "User not found or already deleted" USER_NOT_FOUND.
Proof.
  apply (proj1 (proj2 (X11_delete_user_twice
                  (sampleRequest "DELETE" 1 5 "7" emptyBody) samplePool
                  100 200)) sampleDb 7 eq_refl eq_refl eq_refl).
Defined.

(** ** changeUserRole *)

Section ChangeUserRole.

Variable bindText : JsValue -> option string.
Variable bindBool : JsValue -> option bool.
Variable bindInt : JsValue -> option Z.
Variable RoleName : JsValue -> string.

(** The role-change statement, run. *)
Lemma runUpdate_role now newRole userId db :
  runUpdate bindText bindBool bindInt now
    [numberValue newRole; numberValue userId]
    [(Account_Role, Param 1); (Updated_At, NOW)] 2 (PoolUp db)
  = match bindInt (numberValue newRole), userId with
    | Some v, Some t =>
        if inIntegerColumn t
        then
          Updated
            {| Account :=
                 map (fun r => if hasId t r then withRole v now r else r)
                     (Account db);
               Account_Credential := Account_Credential db |}
            (map (withRole v now) (filter (hasId t) (Account db)))
        else UpdateThrows
    | _, _ => UpdateThrows
    end.
Proof.
  unfold runUpdate. simpl.
  destruct (bindInt (numberValue newRole)) as [v |]; simpl;
    destruct userId as [t |]; reflexivity.
Qed.

Lemma sameOutsideRole_refl r : sameOutsideRole r r.
Proof. unfold sameOutsideRole. repeat split. Qed.

(** [changeUserRole], case by case. *)
Lemma changeUserRole_cases request pool now :
  changeUserRole bindText bindBool bindInt RoleName request pool now
  = let newRole := parseInt (body_role (body request)) in
    match pool, parseInt (params_id request) with
    | PoolUp db, Some t =>
        if inIntegerColumn t
        then
          match filter (hasId t) (Account db),
                bindInt (numberValue newRole) with
          | [], _ => (sentError 404 "User not found" USER_NOT_FOUND, pool)
          | _ :: _, None =>
              (sentError 500 "Failed to change user role"
                         SRVR_DATABASE_ERROR, pool)
          | currentUser :: _, Some v =>
              (sentSuccess
                 {| rc_user := withRole v now currentUser;
                    rc_role := RoleName (numberValue newRole);
                    rc_roleLevel := numberValue newRole;
                    rc_previousRole :=
                      RoleName (JNum (account_role currentUser));
                    rc_previousRoleLevel := account_role currentUser |}
                 ("User role changed from "
                    ++ RoleName (JNum (account_role currentUser))
                    ++ " to " ++ RoleName (numberValue newRole)),
               PoolUp
                 {| Account :=
                      map (fun r => if hasId t r
                                    then withRole v now r else r)
                          (Account db);
                    Account_Credential := Account_Credential db |})
          end
        else (sentError 500 "Failed to change user role"
                        SRVR_DATABASE_ERROR, pool)
    | _, _ =>
        (sentError 500 "Failed to change user role" SRVR_DATABASE_ERROR,
         pool)
    end.
Proof.
  unfold changeUserRole. cbv zeta.
  destruct pool as [| db]; [reflexivity |].
  destruct (parseInt (params_id request)) as [t |]; [| reflexivity].
  cbn [selectAccount numberValue].
  destruct (inIntegerColumn t) eqn:Hrange; [| reflexivity].
  destruct (filter (hasId t) (Account db)) as [| cur rest] eqn:Hrows;
    [reflexivity |].
  change (JNum t) with (numberValue (Some t)).
  rewrite runUpdate_role, Hrange.
  destruct (bindInt (numberValue (parseInt (body_role (body request)))));
    [| reflexivity].
  rewrite Hrows. reflexivity.
Qed.

Lemma roleChange_rows t v now rows :
  Forall2 (roleChangeFrame (Some t)) rows
    (map (fun r => if hasId t r then withRole v now r else r) rows).
Proof.
  apply Forall2_map_r_in. intros r _. unfold hasId.
  destruct (Z.eqb_spec (account_id r) t) as [Heq | Hne].
  - split; [unfold sameOutsideRole; repeat split |].
    intros Hother. exfalso. apply Hother. congruence.
  - split; [apply sameOutsideRole_refl | reflexivity].
Qed.

Lemma changeUserRole_frame request pool now :
  rowsRelated (roleChangeFrame (parseInt (params_id request))) pool
    (snd (changeUserRole bindText bindBool bindInt RoleName request pool now)).
Proof.
  rewrite changeUserRole_cases. cbv zeta.
  assert (Hsame : rowsRelated
                    (roleChangeFrame (parseInt (params_id request)))
                    pool pool).
  { apply rowsRelated_refl. intros r.
    split; [apply sameOutsideRole_refl | reflexivity]. }
  destruct pool as [| db]; [exact I |].
  destruct (parseInt (params_id request)) as [t |]; [| exact Hsame].
  destruct (inIntegerColumn t); [| exact Hsame].
  destruct (filter (hasId t) (Account db)) as [| cur rest];
    [exact Hsame |].
  destruct (bindInt _) as [v |]; [| exact Hsame].
  split; [reflexivity | apply roleChange_rows].
Qed.

(** X12. [changeUserRole] writes only the role and the update time, only
    in rows of the target, and never the credentials; whenever it replies
    with an error it leaves the store exactly as it was. A target within
    the range of the integer id column that no row carries gets 404 "User
    not found"; an identifier outside that range gets 500 "Failed to
    change user role". *)
Theorem X12_change_user_role_frame request pool now :
  rowsRelated (roleChangeFrame (parseInt (params_id request))) pool
    (snd (changeUserRole bindText bindBool bindInt RoleName request pool now))
  /\ (forall status message code,
        fst (changeUserRole bindText bindBool bindInt RoleName
               request pool now)
        = sentError status message code ->
        snd (changeUserRole bindText bindBool bindInt RoleName
               request pool now) = pool)
  /\ (forall db t,
        pool = PoolUp db ->
        parseInt (params_id request) = Some t ->
        inIntegerColumn t = true ->
        (forall r, In r (Account db) -> account_id r <> t) ->
        changeUserRole bindText bindBool bindInt RoleName request pool now
        = (sentError 404 "User not found" USER_NOT_FOUND, pool))
  /\ (forall t,
        parseInt (params_id request) = Some t ->
        inIntegerColumn t = false ->
        changeUserRole bindText bindBool bindInt RoleName request pool now
        = (sentError 500 "Failed to change user role" SRVR_DATABASE_ERROR,
           pool)).
Proof.
  split; [apply changeUserRole_frame |].
  rewrite changeUserRole_cases. cbv zeta. split; [| split].
  - intros status message code.
    destruct pool as [| db]; [reflexivity |].
    destruct (parseInt (params_id request)) as [t |]; [| reflexivity].
    destruct (inIntegerColumn t); [| reflexivity].
    destruct (filter (hasId t) (Account db)) as [| cur rest];
      [reflexivity |].
    destruct (bindInt _) as [v |]; [discriminate | reflexivity].
  - intros db t -> -> -> Habsent.
    assert (Hnone : filter (hasId t) (Account db) = []).
    { induction (Account db) as [| r rows IH]; [reflexivity |].
      simpl. unfold hasId at 1.
      destruct (Z.eqb_spec (account_id r) t) as [Heq | _].
      - exfalso. apply (Habsent r); [left; reflexivity | exact Heq].
      - apply IH. intros r' Hin. apply Habsent. right. exact Hin. }
    rewrite Hnone. reflexivity.
  - intros t -> ->. destruct pool; reflexivity.
Qed.

Lemma filter_hasId_withRole t v now rows :
  filter (hasId t) (map (fun r => if hasId t r then withRole v now r else r)
                        rows)
  = map (withRole v now) (filter (hasId t) rows).
Proof.
  induction rows as [| r rows IH]; [reflexivity |].
  simpl. destruct (hasId t r) eqn:Hr.
  - change (hasId t (withRole v now r)) with (hasId t r). rewrite Hr.
    simpl. f_equal. exact IH.
  - rewrite Hr. exact IH.
Qed.

(** X13. When the store takes the requested role as the integer [v],
    [changeUserRole] on an existing target succeeds; the previous level it
    reports is the role the lookup returned before, and afterwards the
    lookup of the target returns [v] in place of every role it returned
    before. *)
Theorem X13_change_user_role_then_lookup request db now t v old rest :
  parseInt (params_id request) = Some t ->
  bindInt (numberValue (parseInt (body_role (body request)))) = Some v ->
  selectAccountRole (PoolUp db) t = Rows (old :: rest) ->
  exists data message,
    fst (changeUserRole bindText bindBool bindInt RoleName
           request (PoolUp db) now)
    = sentSuccess data message
    /\ rc_previousRoleLevel data = old
    /\ account_role (rc_user data) = v
    /\ account_id (rc_user data) = t
    /\ selectAccountRole
         (snd (changeUserRole bindText bindBool bindInt RoleName
                 request (PoolUp db) now)) t
       = Rows (map (fun _ => v) (old :: rest)).
Proof.
  intros Hid Hbind Hrow.
  rewrite changeUserRole_cases. cbv zeta. rewrite Hid, Hbind.
  unfold selectAccountRole in Hrow.
  destruct (inIntegerColumn t) eqn:Hrange; [| discriminate Hrow].
  injection Hrow as Hrow.
  destruct (filter (hasId t) (Account db)) as [| cur others] eqn:Hrows;
    [discriminate Hrow |].
  simpl in Hrow. injection Hrow as Hold Hrest.
  eexists. eexists.
  split; [reflexivity |]. cbn [fst snd rc_previousRoleLevel rc_user].
  split; [exact Hold |]. split; [reflexivity |].
  split.
  - assert (Hin : In cur (filter (hasId t) (Account db)))
      by (rewrite Hrows; left; reflexivity).
    apply filter_In in Hin. destruct Hin as [_ Hcur].
    apply Z.eqb_eq. exact Hcur.
  - unfold selectAccountRole. rewrite Hrange. cbn [Account].
    rewrite filter_hasId_withRole, Hrows. simpl. f_equal. f_equal.
    rewrite <- Hrest. rewrite !map_map. reflexivity.
Qed.

End ChangeUserRole.

(** X12 at work: a role change for the missing account 99. *)
Lemma X12_witness :
  changeUserRole acceptText acceptBool acceptInt (fun _ => "role")
    (sampleRequest "PUT" 1 5 "99" (roleBody (JNum 2))) samplePool 100
  = (sentError 404 "User not found" USER_NOT_FOUND, samplePool).
Proof.
  apply (proj1 (proj2 (proj2 (X12_change_user_role_frame
           acceptText acceptBool acceptInt (fun _ => "role")
           (sampleRequest "PUT" 1 5 "99" (roleBody (JNum 2))) samplePool 100)))
           sampleDb 99 eq_refl eq_refl eq_refl sampleDb_no_99).
Defined.

(** X13 at work: account 6 moved from role 2 to role 3. *)
Lemma X13_witness :
  exists data message,
    fst (changeUserRole acceptText acceptBool acceptInt (fun _ => "role")
           (sampleRequest "PUT" 1 5 "6" (roleBody (JNum 3)))
           (PoolUp sampleDb) 100)
    = sentSuccess data message
    /\ rc_previousRoleLevel data = 2
    /\ account_role (rc_user data) = 3
    /\ account_id (rc_user data) = 6
    /\ selectAccountRole
         (snd (changeUserRole acceptText acceptBool acceptInt
                 (fun _ => "role")
                 (sampleRequest "PUT" 1 5 "6" (roleBody (JNum 3)))
                 (PoolUp sampleDb) 100)) 6
       = Rows (map (fun _ => 3) [2]).
Proof.
  apply (X13_change_user_role_then_lookup
           acceptText acceptBool acceptInt (fun _ => "role")
           (sampleRequest "PUT" 1 5 "6" (roleBody (JNum 3)))
           sampleDb 100 6 3 2 [] eq_refl eq_refl eq_refl).
Defined.

(** ** updateUser: what a successful update stores *)

Section UpdateUserEffect.

Variable bindText : JsValue -> option string.
Variable bindBool : JsValue -> option bool.
Variable bindInt : JsValue -> option Z.

Lemma updateUser_frame request pool now :
  rowsRelated (updateFrame (parseInt (params_id request))) pool
    (snd (updateUser bindText bindBool bindInt request pool now)).
Proof.
  assert (Hsame : forall p,
            rowsRelated (updateFrame (parseInt (params_id request))) p p)
    by (intros p; apply rowsRelated_refl; intros r; apply updateFrame_refl).
  unfold updateUser.
  pose proof (pushIfDefined_ok Phone_Verified
                (phoneVerified (body request)) _ eq_refl
                (pushIfDefined_ok Email_Verified
                   (emailVerified (body request)) _ eq_refl
                   (pushIfDefined_ok Account_Status
                      (accountStatus (body request)) ([], [], 1%nat) eq_refl
                      (conj (Forall_nil _) eq_refl)))) as Hok.
  destruct (pushIfDefined Phone_Verified _ _)
    as [[updates values] paramCount].
  destruct Hok as [Hcols ->].
  destruct (length updates =? 0)%nat; [apply Hsame |].
  destruct pool as [| db]; [exact I |].
  destruct (runUpdate _ _ _ _ _ _ _ _) as [db' returning |] eqn:Hrun;
    [| apply Hsame].
  assert (Hframe : rowsRelated (updateFrame (parseInt (params_id request)))
                     (PoolUp db) (PoolUp db')).
  { apply (runUpdate_frame _ _ _ _ _ _ _ _ _ _ _) with (3 := Hrun).
    - apply Forall_app. split; [exact Hcols |].
      constructor; [reflexivity | constructor].
    - apply placeholder_last. }
  destruct returning; exact Hframe.
Qed.

Ltac open_update H :=
  unfold updateUser, pushIfDefined in H;
  repeat match type of H with
         | context [isDefined ?v] =>
             let Hd := fresh "Hdefined" in
             destruct (isDefined v) eqn:Hd
         end;
  cbn [app length Nat.eqb] in H;
  try discriminate H;
  unfold runUpdate, setClauses, setClause, bound, boundTime, placeholder in H;
  cbn [app nth_error option_map numberValue] in H;
  repeat match type of H with
         | context [bindText ?v] =>
             let Hb := fresh "Hbound" in
             destruct (bindText v) eqn:Hb; cbn [option_map] in H
         | context [bindBool ?v] =>
             let Hb := fresh "Hbound" in
             destruct (bindBool v) eqn:Hb; cbn [option_map] in H
         end;
  try discriminate H.

(** X17. A successful [updateUser] is a partial update: in every row of
    the target the update time becomes the current time, each of
    [accountStatus], [emailVerified], [phoneVerified] that the body defines
    is stored as the store reads it, and each one the body leaves out keeps
    its value; the user in the reply is a row of the target as stored. *)
Theorem X17_update_user_partial request db now t user message db' :
  parseInt (params_id request) = Some t ->
  updateUser bindText bindBool bindInt request (PoolUp db) now
  = (sendSuccess user message, PoolUp db') ->
  Forall2
    (fun r r' =>
       account_id r = t ->
       updated_at r' = now
       /\ (if isDefined (accountStatus (body request))
           then bindText (accountStatus (body request))
                = Some (account_status r')
           else account_status r' = account_status r)
       /\ (if isDefined (emailVerified (body request))
           then bindBool (emailVerified (body request))
                = Some (email_verified r')
           else email_verified r' = email_verified r)
       /\ (if isDefined (phoneVerified (body request))
           then bindBool (phoneVerified (body request))
                = Some (phone_verified r')
           else phone_verified r' = phone_verified r))
    (Account db) (Account db')
  /\ exists r',
       In r' (Account db') /\ account_id r' = t /\ user = userView r'.
Proof.
  intros Hid Hrun.
  open_update Hrun.
  all: rewrite ?Hid in Hrun; cbn [numberValue] in Hrun;
    destruct (inIntegerColumn t); try discriminate Hrun;
    destruct (filter (hasId t) (Account db)) as [| cur rest] eqn:Hrows;
    cbn [map] in Hrun; try discriminate Hrun;
    injection Hrun as <- _ <-; cbn [Account];
    (split;
     [ apply Forall2_map_r_in; intros r _; unfold hasId;
       destruct (Z.eqb_spec (account_id r) t) as [Heq | Hne];
       intros Htarget; [| contradiction];
       cbn; repeat split; assumption || reflexivity
     | assert (Hin : In cur (filter (hasId t) (Account db)))
         by (rewrite Hrows; left; reflexivity);
       apply filter_In in Hin; destruct Hin as [Hin Hcur];
       eexists; split;
       [ apply in_map_iff; exists cur; split; [| exact Hin];
         rewrite Hcur; reflexivity
       | split; [apply Z.eqb_eq; exact Hcur | reflexivity] ] ]).
Qed.



End UpdateUserEffect.

(** X17 at work: the suspension of account 6 with its phone verified. *)
Lemma X17_witness :
  exists r',
    In r' (map (fun r => if hasId 6 r
                         then {| account_id := account_id r;
                                 firstname := firstname r;
                                 lastname := lastname r;
                                 username := username r;
                                 email := email r; phone := phone r;
                                 account_role := account_role r;
                                 email_verified := email_verified r;
                                 phone_verified := true;
                                 account_status := "suspended";
                                 created_at := created_at r;
                                 updated_at := 100 |}
                         else r) (Account sampleDb))
    /\ account_id r' = 6
    /\ {| uu_id := 6; uu_firstName := "mod"; uu_lastName := "Doe";
          uu_username := "mod"; uu_email := "mod@example.org";
          uu_accountStatus := "suspended"; uu_emailVerified := false;
          uu_phoneVerified := true; uu_updatedAt := 100 |}
       = userView r'.
Proof.
  apply (proj2 (X17_update_user_partial acceptText acceptBool acceptInt
           (sampleRequest "PUT" 3 4 "6"
              {| body_role := JUndefined; accountStatus := JStr "suspended";
                 emailVerified := JUndefined; phoneVerified := JBool true |})
           sampleDb 100 6 _ "User updated successfully"
           {| Account := _; Account_Credential := Account_Credential sampleDb |}
           eq_refl eq_refl)).
Defined.


(** ** The routes end to end

    Each route is run on one store from its first middleware to its
    controller, with no other request in between. *)

Lemma userGate_next_inv request pool r' :
  userGate request pool = Next r' ->
  exists c t tr rest,
    claims request = Some c
    /\ 3 <= claims_role c
    /\ parseInt (params_id request) = Some t
    /\ selectAccountRole pool t = Rows (tr :: rest)
    /\ tr < claims_role c
    /\ (method request = "DELETE" -> t <> claims_id c)
    /\ r' = setTargetUserRole request tr.
Proof.
  unfold userGate, requireAdmin, UserRole.ADMIN. intros Hnext.
  destruct (claims request) as [c |] eqn:Hc; [| discriminate].
  destruct (Z.ltb_spec (claims_role c) 3) as [Hlow | Hadmin];
    [discriminate |].
  simpl in Hnext.
  destruct (checkRoleHierarchy_next_inv _ _ _ Hnext)
    as (c' & t & tr & rest & Hc' & Hid & Hrow & Hlt & Hother & ->).
  rewrite Hc in Hc'. injection Hc' as <-.
  exists c, t, tr, rest. repeat split; assumption || reflexivity.
Qed.

(** Under the primary key, the role the lookup returns first is the role
    of every row with that identifier. *)
Lemma unique_row_role db r tr rest :
  uniqueIds db ->
  In r (Account db) ->
  selectAccountRole (PoolUp db) (account_id r) = Rows (tr :: rest) ->
  account_role r = tr.
Proof.
  unfold uniqueIds, selectAccountRole. intros Hunique Hin Hrow.
  destruct (inIntegerColumn (account_id r)); [| discriminate Hrow].
  injection Hrow as Hrow. revert Hunique Hin Hrow.
  induction (Account db) as [| h rows IH]; simpl; [contradiction |].
  intros Hunique [-> | Hin] Hrow.
  - unfold hasId in Hrow at 1. rewrite Z.eqb_refl in Hrow.
    simpl in Hrow. congruence.
  - inversion Hunique as [| ? ? Hfresh Hrest]; subst.
    unfold hasId in Hrow at 1.
    destruct (Z.eqb_spec (account_id h) (account_id r)) as [Heq | _].
    + exfalso. apply Hfresh. rewrite Heq.
      apply in_map. exact Hin.
    + exact (IH Hrest Hin Hrow).
Qed.

Lemma Forall2_weaken_in (R R' : AccountRow -> AccountRow -> Prop) rows rows' :
  (forall r r', In r rows -> R r r' -> R' r r') ->
  Forall2 R rows rows' -> Forall2 R' rows rows'.
Proof.
  intros Himpl Hrows. induction Hrows as [| r r' rows rows' Hr _ IH];
    constructor.
  - apply Himpl; [left; reflexivity | exact Hr].
  - apply IH. intros a b Hin. apply Himpl. right. exact Hin.
Qed.

Section Routes.

Variable bindText : JsValue -> option string.
Variable bindBool : JsValue -> option bool.
Variable bindInt : JsValue -> option Z.
Variable RoleName : JsValue -> string.

(** X14. Through [PUT /admin/users/:id], with unique identifiers in the
    store, no account whose role is at or above the acting role is changed
    in any way, and no account's identifier, names, username, email, phone,
    role or creation time changes. *)
Theorem X14_update_route_protects_peers request db now c :
  claims request = Some c ->
  uniqueIds db ->
  rowsRelated
    (fun r r' =>
       sameOutsideUpdate r r'
       /\ (claims_role c <= account_role r -> r' = r))
    (PoolUp db)
    (snd (putUserRoute bindText bindBool bindInt request (PoolUp db) now)).
Proof.
  intros Hc Hunique. unfold putUserRoute.
  assert (Hsame : rowsRelated
            (fun r r' =>
               sameOutsideUpdate r r'
               /\ (claims_role c <= account_role r -> r' = r))
            (PoolUp db) (PoolUp db)).
  { apply rowsRelated_refl. intros r.
    split; [apply sameOutsideUpdate_refl | reflexivity]. }
  destruct (userGate request (PoolUp db)) as [r1 | reply |] eqn:Hgate;
    try exact Hsame.
  destruct (userGate_next_inv _ _ _ Hgate)
    as (c' & t & tr & rest & Hc' & _ & Hid & Hrow & Hlt & _ & ->).
  rewrite Hc in Hc'. injection Hc' as <-.
  pose proof (updateUser_frame bindText bindBool bindInt
                (setTargetUserRole request tr) (PoolUp db) now) as Hframe.
  destruct (updateUser _ _ _ _ _ _) as [reply pool']. simpl in *.
  rewrite Hid in Hframe.
  destruct pool' as [| db']; [exact Hframe |].
  destruct Hframe as [Hcred Hrows]. split; [exact Hcred |].
  apply Forall2_weaken_in with (2 := Hrows).
  intros r r' Hin [Hkeep Hother]. split; [exact Hkeep |].
  intros Hpeer. apply Hother. intros [= Ht].
  subst t. rewrite (unique_row_role _ _ _ _ Hunique Hin Hrow) in Hpeer. lia.
Qed.

(** X15. Through [DELETE /admin/users/:id], with unique identifiers in the
    store, no account whose role is at or above the acting role is changed,
    the acting principal's own account is not changed, and a changed row
    is a row marked deleted. *)
Theorem X15_delete_route_protects_peers_and_self request db now c :
  claims request = Some c ->
  method request = "DELETE" ->
  uniqueIds db ->
  rowsRelated
    (fun r r' =>
       (r' = r \/ r' = markDeleted now r)
       /\ (claims_role c <= account_role r -> r' = r)
       /\ (account_id r = claims_id c -> r' = r))
    (PoolUp db)
    (snd (deleteUserRoute request (PoolUp db) now)).
Proof.
  intros Hc Hverb Hunique. unfold deleteUserRoute.
  assert (Hsame : rowsRelated
            (fun r r' =>
               (r' = r \/ r' = markDeleted now r)
               /\ (claims_role c <= account_role r -> r' = r)
               /\ (account_id r = claims_id c -> r' = r))
            (PoolUp db) (PoolUp db)).
  { apply rowsRelated_refl. intros r.
    split; [left; reflexivity | split; reflexivity]. }
  destruct (userGate request (PoolUp db)) as [r1 | reply |] eqn:Hgate;
    try exact Hsame.
  destruct (userGate_next_inv _ _ _ Hgate)
    as (c' & t & tr & rest & Hc' & _ & Hid & Hrow & Hlt & Hother & ->).
  rewrite Hc in Hc'. injection Hc' as <-.
  pose proof (deleteUser_frame (setTargetUserRole request tr)
                (PoolUp db) now) as Hframe.
  destruct (deleteUser _ _ _) as [reply pool']. simpl in *.
  rewrite Hid in Hframe.
  destruct pool' as [| db']; [exact Hframe |].
  destruct Hframe as [Hcred Hrows]. split; [exact Hcred |].
  apply Forall2_weaken_in with (2 := Hrows).
  intros r r' Hin [-> | ([= Ht] & _ & ->)];
    [split; [left; reflexivity | split; reflexivity] |].
  subst t. split; [right; reflexivity |]. split.
  - intros Hpeer.
    rewrite (unique_row_role _ _ _ _ Hunique Hin Hrow) in Hpeer. lia.
  - intros Hself. exfalso. exact (Hother Hverb Hself).
Qed.

(** X16. Through [PUT /admin/users/:id/role], with unique identifiers in
    the store and a store that keeps integers as they are, nobody gains a
    role above the acting principal's: the acting principal's own account
    and every account at or above the acting role stay as they were, a
    changed account gets a role in 1..5 that does not exceed the acting
    role, and nothing but the role and the update time changes. *)
Theorem X16_role_route_no_escalation request db now c :
  claims request = Some c ->
  uniqueIds db ->
  (forall n, bindInt (JNum n) = Some n) ->
  rowsRelated
    (fun r r' =>
       sameOutsideRole r r'
       /\ (account_id r = claims_id c -> r' = r)
       /\ (claims_role c <= account_role r -> r' = r)
       /\ (r' = r
           \/ (1 <= account_role r' <= 5
               /\ account_role r' <= claims_role c)))
    (PoolUp db)
    (snd (putUserRoleRoute bindText bindBool bindInt RoleName
            request (PoolUp db) now)).
Proof.
  intros Hc Hunique Hbind. unfold putUserRoleRoute.
  set (R := fun r r' : AccountRow =>
              sameOutsideRole r r'
              /\ (account_id r = claims_id c -> r' = r)
              /\ (claims_role c <= account_role r -> r' = r)
              /\ (r' = r
                  \/ (1 <= account_role r' <= 5
                      /\ account_role r' <= claims_role c))).
  assert (Hkeep : forall r, R r r).
  { intros r. split; [apply sameOutsideRole_refl |].
    repeat split. left. reflexivity. }
  assert (Hsame := rowsRelated_refl R (PoolUp db) Hkeep).
  destruct (putUserRoleGate request (PoolUp db)) as [r1 | reply |] eqn:Hgate;
    try exact Hsame.
  destruct (putUserRoleGate_next_inv _ _ _ Hgate)
    as (c' & number & t & nr & cur & rest & Hc' & _ & _ & Hread & _ & Hrange
        & Hle & Hother & Hrow & Hlt & ->).
  rewrite Hc in Hc'. injection Hc' as <-.
  rewrite changeUserRole_cases. cbv zeta.
  cbn [params_id body body_role]. rewrite Hread.
  rewrite parseInt_number_small by lia. cbn [numberValue]. rewrite Hbind.
  assert (Hfound := Hrow). unfold selectAccountRole in Hrow.
  destruct (inIntegerColumn t); [| discriminate Hrow].
  injection Hrow as Hrow.
  destruct (filter (hasId t) (Account db)) as [| first others] eqn:Hrows;
    [discriminate Hrow |].
  cbn [snd]. split; [reflexivity |].
  apply Forall2_map_r_in. intros r Hin.
  destruct (hasId t r) eqn:Hr; [| apply Hkeep].
  apply Z.eqb_eq in Hr.
  assert (Hrole : account_role r = cur).
  { apply (unique_row_role db r cur rest Hunique Hin).
    rewrite Hr. exact Hfound. }
  split; [unfold sameOutsideRole; repeat split |].
  split; [intros Hself; exfalso; apply Hother; congruence |].
  split; [intros Hpeer; lia |].
  right. simpl. lia.
Qed.

End Routes.

Lemma sampleDb_uniqueIds : uniqueIds sampleDb.
Proof.
  unfold uniqueIds. simpl.
  repeat (constructor;
          [simpl; intros H;
           repeat (destruct H as [H | H]; [discriminate H |]); exact H |]).
  constructor.
Defined.

(** X14 at work: Admin 4 suspending account 6. *)
Lemma X14_witness :
  rowsRelated
    (fun r r' => sameOutsideUpdate r r' /\ (3 <= account_role r -> r' = r))
    (PoolUp sampleDb)
    (snd (putUserRoute acceptText acceptBool acceptInt
            (sampleRequest "PUT" 4 3 "6"
               {| body_role := JUndefined; accountStatus := JStr "suspended";
                  emailVerified := JUndefined; phoneVerified := JUndefined |})
            (PoolUp sampleDb) 100)).
Proof.
  apply (X14_update_route_protects_peers acceptText acceptBool acceptInt
           (sampleRequest "PUT" 4 3 "6"
              {| body_role := JUndefined; accountStatus := JStr "suspended";
                 emailVerified := JUndefined; phoneVerified := JUndefined |})
           sampleDb 100 {| claims_id := 4; claims_role := 3 |}
           eq_refl sampleDb_uniqueIds).
Defined.

(** X15 at work: Admin 4 deleting account 6. *)
Lemma X15_witness :
  rowsRelated
    (fun r r' =>
       (r' = r \/ r' = markDeleted 100 r)
       /\ (3 <= account_role r -> r' = r)
       /\ (account_id r = 4 -> r' = r))
    (PoolUp sampleDb)
    (snd (deleteUserRoute (sampleRequest "DELETE" 4 3 "6" emptyBody)
            (PoolUp sampleDb) 100)).
Proof.
  apply (X15_delete_route_protects_peers_and_self
           (sampleRequest "DELETE" 4 3 "6" emptyBody)
           sampleDb 100 {| claims_id := 4; claims_role := 3 |}
           eq_refl eq_refl sampleDb_uniqueIds).
Defined.

(** X16 at work: Admin 4 moving account 6 to role 3. *)
Lemma X16_witness :
  rowsRelated
    (fun r r' =>
       sameOutsideRole r r'
       /\ (account_id r = 4 -> r' = r)
       /\ (3 <= account_role r -> r' = r)
       /\ (r' = r
           \/ (1 <= account_role r' <= 5 /\ account_role r' <= 3)))
    (PoolUp sampleDb)
    (snd (putUserRoleRoute acceptText acceptBool acceptInt (fun _ => "role")
            (sampleRequest "PUT" 4 3 "6" (roleBody (JStr "3")))
            (PoolUp sampleDb) 100)).
Proof.
  apply (X16_role_route_no_escalation acceptText acceptBool acceptInt
           (fun _ => "role")
           (sampleRequest "PUT" 4 3 "6" (roleBody (JStr "3")))
           sampleDb 100 {| claims_id := 4; claims_role := 3 |}
           eq_refl sampleDb_uniqueIds).
  intros n. reflexivity.
Defined.

(** ** getDashboardStats *)





(** ** getAllUsers *)

(** Rounding to a double keeps the sign. *)
Lemma roundMagnitude_pos m : 0 < m -> 0 < roundMagnitude m.
Proof.
  intros Hpos. unfold roundMagnitude.
  destruct (Z.leb_spec (Z.log2 m + 1) 53) as [_ | Hbits]; [exact Hpos |].
  cbv zeta.
  set (e := Z.log2 m + 1 - 53).
  assert (He : 0 < e) by (unfold e; lia).
  assert (Hpow : 0 < 2 ^ e) by (apply Z.pow_pos_nonneg; lia).
  assert (Hq : 1 <= m / 2 ^ e).
  { apply Z.div_le_lower_bound; [exact Hpow |].
    destruct (Z.log2_spec m Hpos) as [Hlow _].
    assert (2 ^ e <= 2 ^ Z.log2 m)
      by (apply Z.pow_le_mono_r; unfold e; lia).
    lia. }
  assert (Hinf : 0 < infinity) by reflexivity.
  destruct ((2 ^ (e - 1) <? m mod 2 ^ e)
            || ((m mod 2 ^ e =? 2 ^ (e - 1)) && Z.odd (m / 2 ^ e)));
    apply Z.min_glb_lt; try exact Hinf; apply Z.mul_pos_pos; lia.
Qed.

Lemma roundDouble_sign n :
  (0 <= n -> 0 <= roundDouble n) /\ (n < 0 -> roundDouble n < 0).
Proof.
  unfold roundDouble. split; intros Hn.
  - destruct (Z.eq_dec n 0) as [-> | Hne]; [reflexivity |].
    pose proof (roundMagnitude_pos (Z.abs n) ltac:(lia)).
    rewrite Z.sgn_pos by lia. lia.
  - pose proof (roundMagnitude_pos (Z.abs n) ltac:(lia)).
    rewrite Z.sgn_neg by lia. lia.
Qed.

Lemma topDecade_bounds fuel p d :
  1 <= p <= d -> 1 <= topDecade fuel p d <= d.
Proof.
  revert p. induction fuel as [| fuel IH]; intros p Hp;
    cbn [topDecade]; [exact Hp |].
  destruct (Z.leb_spec (10 * p) d); [apply IH; lia | exact Hp].
Qed.

Lemma leadingDigit_pos d : 1 <= d -> 1 <= leadingDigit d.
Proof.
  intros Hd. unfold leadingDigit.
  pose proof (topDecade_bounds 400 1 d ltac:(lia)) as [Hlow Hhigh].
  set (p := topDecade 400 1 d) in *.
  assert (Hm : 1 <= d / p) by (apply Z.div_le_lower_bound; lia).
  destruct (roundMagnitude (d / p * p) =? d); [exact Hm |].
  destruct (roundMagnitude ((d / p + 1) * p) =? d); [| exact Hm].
  destruct (d / p + 1 =? 10); lia.
Qed.

(** A positive number is read back as a positive number. *)
Lemma parseInt_number_pos n d :
  1 <= n -> parseInt (JNum n) = Some d -> 1 <= d.
Proof.
  intros Hn. unfold parseInt, parseIntNumber.
  assert (Hround : 1 <= roundDouble n).
  { unfold roundDouble. rewrite Z.sgn_pos, Z.abs_eq by lia.
    pose proof (roundMagnitude_pos n ltac:(lia)). lia. }
  destruct (infinity <=? Z.abs (roundDouble n)); [discriminate |].
  destruct (Z.abs (roundDouble n) <? 10 ^ 21); intros [= <-];
    [exact Hround |].
  rewrite Z.sgn_pos, Z.abs_eq by lia.
  pose proof (leadingDigit_pos (roundDouble n) Hround). lia.
Qed.

Lemma offsetOf_nonneg query :
  1 <= limitOf query -> (0 <= offsetOf query <-> 1 <= pageOf query).
Proof.
  intros Hlimit. unfold offsetOf.
  destruct (roundDouble_sign (pageOf query - 1)) as [Hup Hdown].
  destruct (roundDouble_sign
              (roundDouble (pageOf query - 1) * limitOf query))
    as [Hup' Hdown'].
  split; intros H.
  - destruct (Z.lt_ge_cases (pageOf query - 1) 0) as [Hneg | Hok]; [| lia].
    specialize (Hdown Hneg).
    assert (roundDouble (pageOf query - 1) * limitOf query < 0) by nia.
    specialize (Hdown' ltac:(assumption)). lia.
  - apply Hup'. specialize (Hup ltac:(lia)). nia.
Qed.

Lemma parseIntOr_nonzero v d : d <> 0 -> parseIntOr v d <> 0.
Proof.
  intros Hd. unfold parseIntOr.
  destruct (parseInt v) as [n |]; [| exact Hd].
  destruct (Z.eqb_spec n 0); assumption.
Qed.

Lemma limitOf_bounds query : limitOf query <= 100 /\ limitOf query <> 0.
Proof.
  unfold limitOf.
  pose proof (parseIntOr_nonzero (query_limit query) 20 ltac:(lia)).
  lia.
Qed.

Lemma In_firstn (rows : list AccountRow) n r :
  In r (firstn n rows) -> In r rows.
Proof.
  revert n. induction rows as [| h rows IH]; intros [| n]; simpl;
    try contradiction.
  intros [-> | Hin]; [left; reflexivity | right; exact (IH n Hin)].
Qed.

Lemma In_skipn (rows : list AccountRow) n r :
  In r (skipn n rows) -> In r rows.
Proof.
  revert n. induction rows as [| h rows IH]; intros [| n]; simpl;
    try contradiction; [tauto |].
  intros Hin. right. exact (IH n Hin).
Qed.

Lemma StronglySorted_skipn (R : AccountRow -> AccountRow -> Prop) rows n :
  StronglySorted R rows -> StronglySorted R (skipn n rows).
Proof.
  revert n. induction rows as [| h rows IH]; intros [| n] Hsorted; simpl;
    try exact Hsorted.
  apply IH. apply StronglySorted_inv in Hsorted. tauto.
Qed.

Lemma StronglySorted_firstn (R : AccountRow -> AccountRow -> Prop) rows n :
  StronglySorted R rows -> StronglySorted R (firstn n rows).
Proof.
  revert n. induction rows as [| h rows IH]; intros [| n] Hsorted; simpl;
    try constructor.
  - apply IH. apply StronglySorted_inv in Hsorted. tauto.
  - apply StronglySorted_inv in Hsorted. destruct Hsorted as [_ Hall].
    rewrite Forall_forall in *. intros r Hin.
    apply Hall. exact (In_firstn _ _ _ Hin).
Qed.

Section ListingProperties.

Variable bindText : JsValue -> option string.
Variable RoleName : JsValue -> string.
Variable orderByCreatedDesc : list AccountRow -> list AccountRow.

(** The store returns the matching rows, each once, newest first. *)
Hypothesis orderBy_permutation :
  forall rows, Permutation (orderByCreatedDesc rows) rows.
Hypothesis orderBy_sorted :
  forall rows,
    StronglySorted (fun a b => created_at b <= created_at a)
                   (orderByCreatedDesc rows).

(** X20. A listing that succeeds shows a page number of at least 1 and a
    page size between 1 and 100, returns no more users than the page size
    and than the total it reports, and the users it returns are rows of
    the store, newest first, that carry the status asked for and the role
    asked for when that role lies in 1..5. *)
Theorem X20_listing_page query pool data message :
  getAllUsers bindText RoleName orderByCreatedDesc query pool
  = sentSuccess data message ->
  1 <= pg_page (pagination data)
  /\ 1 <= pg_limit (pagination data) <= 100
  /\ (length (users data) <= Z.to_nat (pg_limit (pagination data)))%nat
  /\ (length (users data) <= pg_totalUsers (pagination data))%nat
  /\ exists db rows,
       pool = PoolUp db
       /\ users data = map (listedUser RoleName) rows
       /\ StronglySorted (fun a b => created_at b <= created_at a) rows
       /\ forall r, In r rows ->
            In r (Account db)
            /\ (truthy (query_status query) = true ->
                bindText (query_status query) = Some (account_status r))
            /\ (forall n, roleFilter query = Some n -> account_role r = n).
Proof.
  unfold getAllUsers. intros Hrun.
  destruct pool as [| db]; [discriminate |].
  pose proof (limitOf_bounds query) as [Hcap Hnonzero].
  destruct (Z.ltb_spec (limitOf query) 0) as [Hneg | Hlimit];
    [destruct (if truthy (query_status query) then _ else _);
       discriminate Hrun |].
  destruct (Z.ltb_spec (offsetOf query) 0) as [Hneg | Hoffset];
    [destruct (if truthy (query_status query) then _ else _);
       discriminate Hrun |].
  destruct (maxBigint <? offsetOf query);
    [destruct (if truthy (query_status query) then _ else _);
       discriminate Hrun |].
  assert (Hpage : 1 <= pageOf query)
    by (apply offsetOf_nonneg; [lia | exact Hoffset]).
  set (statusParam := if truthy (query_status query) then _ else _) in Hrun.
  destruct statusParam as [statusFilter |] eqn:Hstatus; [| discriminate].
  cbn [orb] in Hrun. injection Hrun as <- _.
  cbn [users pagination pg_page pg_limit pg_totalUsers].
  split; [exact Hpage |]. split; [lia |].
  split; [rewrite length_map; apply firstn_le_length |].
  split.
  { rewrite length_map, length_firstn, length_skipn.
    rewrite (Permutation_length (orderBy_permutation _)). lia. }
  eexists db, _. split; [reflexivity |]. split; [reflexivity |].
  split.
  { apply StronglySorted_firstn, StronglySorted_skipn, orderBy_sorted. }
  intros r Hin.
  apply In_firstn, In_skipn in Hin.
  apply (Permutation_in _ (orderBy_permutation _)) in Hin.
  apply filter_In in Hin. destruct Hin as [Hin Hmatch].
  unfold matchesFilters in Hmatch. apply andb_prop in Hmatch.
  destruct Hmatch as [Hs Hr].
  split; [exact Hin |]. split.
  - intros Htruthy. subst statusParam. rewrite Htruthy in Hstatus.
    destruct (bindText (query_status query)) as [s |]; [| discriminate].
    injection Hstatus as <-. apply String.eqb_eq in Hs. congruence.
  - intros n Hrole. rewrite Hrole in Hr. apply Z.eqb_eq. exact Hr.
Qed.

(** X21. The page size never exceeds 100 and is never 0: a missing,
    unreadable or zero [limit] gives 20 and a [limit] of 100 or more gives
    100. A negative [limit] is passed on as it is, and the listing then
    fails with 500. *)
Theorem X21_listing_limit query :
  limitOf query <= 100
  /\ limitOf query <> 0
  /\ (parseInt (query_limit query) = None
      \/ parseInt (query_limit query) = Some 0 -> limitOf query = 20)
  /\ (forall n, parseInt (query_limit query) = Some n -> 100 <= n ->
      limitOf query = 100)
  /\ (forall n pool, parseInt (query_limit query) = Some n -> n < 0 ->
      limitOf query = n
      /\ getAllUsers bindText RoleName orderByCreatedDesc query pool
         = sentError 500 "Failed to fetch users" SRVR_DATABASE_ERROR).
Proof.
  pose proof (limitOf_bounds query) as [Hcap Hnonzero].
  split; [exact Hcap |]. split; [exact Hnonzero |].
  unfold limitOf, parseIntOr in *. split; [| split].
  - intros [-> | ->]; reflexivity.
  - intros n -> Hbig. destruct (Z.eqb_spec n 0); lia.
  - intros n pool Hn Hneg.
    assert (Hlimit : limitOf query = n).
    { unfold limitOf, parseIntOr. rewrite Hn.
      destruct (Z.eqb_spec n 0); lia. }
    split; [unfold limitOf, parseIntOr in Hlimit; exact Hlimit |].
    unfold getAllUsers. rewrite Hlimit.
    destruct pool as [| db]; [reflexivity |].
    destruct (if truthy (query_status query) then _ else _);
      [| reflexivity].
    destruct (Z.ltb_spec n 0); [reflexivity | lia].
Qed.

(** X22. A role that parses to a number outside 1..5 is not used as a
    condition and yet reported as an applied filter: the listing has the
    users and the pagination of the same query without a role, and its
    filters name that role. *)
Theorem X22_listing_role_out_of_range query pool n data message :
  truthy (query_role query) = true ->
  parseInt (query_role query) = Some n ->
  ~ 1 <= n <= 5 ->
  getAllUsers bindText RoleName orderByCreatedDesc query pool
  = sentSuccess data message ->
  (exists f, filters data = Some f
             /\ af_role f = Some (n, RoleName (JNum n)))
  /\ exists data' message',
       getAllUsers bindText RoleName orderByCreatedDesc
         (withoutRole query) pool
       = sentSuccess data' message'
       /\ users data' = users data
       /\ pagination data' = pagination data.
Proof.
  intros Htruthy Hrole Hout Hrun. unfold getAllUsers in *.
  assert (Hnone : roleFilter query = None).
  { unfold roleFilter. rewrite Htruthy, Hrole.
    destruct (Z.geb_spec n 1); destruct (Z.leb_spec n 5); simpl;
      reflexivity || lia. }
  assert (Hreported : reportedRole query = Some n)
    by (unfold reportedRole; rewrite Htruthy; exact Hrole).
  change (roleFilter (withoutRole query)) with (@None Z).
  change (reportedRole (withoutRole query)) with (@None Z).
  change (limitOf (withoutRole query)) with (limitOf query).
  change (offsetOf (withoutRole query)) with (offsetOf query).
  change (pageOf (withoutRole query)) with (pageOf query).
  change (query_status (withoutRole query)) with (query_status query).
  rewrite Hnone, Hreported in Hrun.
  destruct pool as [| db]; [discriminate |].
  destruct (if truthy (query_status query) then _ else _)
    as [statusFilter |]; [| discriminate].
  destruct ((limitOf query <? 0) || (offsetOf query <? 0)
            || (maxBigint <? offsetOf query));
    [discriminate |].
  injection Hrun as <- _. cbn [filters users pagination]. split.
  - destruct (truthy (query_status query));
      eexists; split; reflexivity.
  - eexists. eexists. split; [reflexivity |].
    cbn [users pagination]. split; reflexivity.
Qed.

Lemma isDefined_false v : isDefined v = false -> v = JUndefined.
Proof. destruct v; simpl; intros H; reflexivity || discriminate H. Qed.

Lemma optionalCheck_nil v failed field msg :
  optionalCheck v failed field msg = [] ->
  v = JUndefined \/ (isDefined v = true /\ failed = false).
Proof.
  unfold optionalCheck, check.
  destruct (isDefined v) eqn:Hdefined.
  - destruct failed; [discriminate | right; split; reflexivity].
  - intros _. left. apply isDefined_false. exact Hdefined.
Qed.

Lemma optionalToInt_int v n :
  isDefined v = true -> fieldInt v = Some n -> optionalToInt v = JNum n.
Proof.
  intros Hdefined Hint. unfold optionalToInt, toInt.
  rewrite Hdefined, Hint. reflexivity.
Qed.

(** What the list chain lets through. *)
Lemma validateAdminUsersList_inl query query' :
  validateAdminUsersList query = inl query' ->
  (query_page query' = JUndefined
   \/ exists n, query_page query' = JNum n /\ 1 <= n)
  /\ (query_limit query' = JUndefined
      \/ exists n, query_limit query' = JNum n /\ 1 <= n <= 100)
  /\ (query_status query' = JUndefined
      \/ exists s, query_status query' = JStr s /\ s <> "")
  /\ (query_role query' = JUndefined
      \/ exists n, query_role query' = JNum n /\ 1 <= n <= 5).
Proof.
  unfold validateAdminUsersList. intros Hvalid.
  destruct (_ ++ _)%list as [| e errors] eqn:Herrors; [| discriminate].
  injection Hvalid as <-. simpl.
  apply app_eq_nil in Herrors. destruct Herrors as [Hpage Herrors].
  apply app_eq_nil in Herrors. destruct Herrors as [Hlimit Herrors].
  apply app_eq_nil in Herrors. destruct Herrors as [Hstatus Hrole].
  apply optionalCheck_nil in Hpage, Hlimit, Hstatus, Hrole.
  repeat split.
  - destruct Hpage as [-> | [Hdefined Hok]]; [left; reflexivity | right].
    apply negb_false_iff in Hok. unfold isIntFrom in Hok.
    destruct (fieldInt (query_page query)) as [n |] eqn:Hint;
      [| discriminate].
    exists n. rewrite (optionalToInt_int _ _ Hdefined Hint).
    split; [reflexivity | apply Z.leb_le; exact Hok].
  - destruct Hlimit as [-> | [Hdefined Hok]]; [left; reflexivity | right].
    apply negb_false_iff in Hok. unfold isIntBetween in Hok.
    destruct (fieldInt (query_limit query)) as [n |] eqn:Hint;
      [| discriminate].
    exists n. rewrite (optionalToInt_int _ _ Hdefined Hint).
    apply andb_prop in Hok. destruct Hok as [Hlo Hhi].
    apply Z.leb_le in Hlo, Hhi. split; [reflexivity | lia].
  - destruct Hstatus as [-> | [Hdefined Hok]]; [left; reflexivity | right].
    apply negb_false_iff in Hok.
    destruct (query_status query) as [| | | b | z | s | printed];
      try discriminate.
    exists s. split; [reflexivity |]. intros ->. discriminate Hok.
  - destruct Hrole as [-> | [Hdefined Hok]]; [left; reflexivity | right].
    apply negb_false_iff in Hok. unfold isIntBetween in Hok.
    destruct (fieldInt (query_role query)) as [n |] eqn:Hint;
      [| discriminate].
    exists n. rewrite (optionalToInt_int _ _ Hdefined Hint).
    apply andb_prop in Hok. destruct Hok as [Hlo Hhi].
    apply Z.leb_le in Hlo, Hhi. split; [reflexivity | lia].
Qed.

(** X23. For a query that the list chain lets through, with the store
    reachable and reading strings as they are, the page is at least 1, the
    page size is the one asked for (20 when none was), and the role
    reported as a filter is the role filtered by; the listing succeeds
    when the offset (page - 1) * limit, as the language computes it, fits
    the 64 bits of OFFSET, and replies 500 "Failed to fetch users" when it
    does not. *)
Theorem X23_validated_listing_succeeds query query' db :
  validateAdminUsersList query = inl query' ->
  (forall s, bindText (JStr s) = Some s) ->
  1 <= pageOf query'
  /\ (query_limit query' = JUndefined -> limitOf query' = 20)
  /\ (forall n, query_limit query' = JNum n -> limitOf query' = n)
  /\ reportedRole query' = roleFilter query'
  /\ (offsetOf query' <= maxBigint ->
      exists data message,
        getAllUsers bindText RoleName orderByCreatedDesc query' (PoolUp db)
        = sentSuccess data message
        /\ pg_page (pagination data) = pageOf query'
        /\ pg_limit (pagination data) = limitOf query')
  /\ (maxBigint < offsetOf query' ->
      getAllUsers bindText RoleName orderByCreatedDesc query' (PoolUp db)
      = sentError 500 "Failed to fetch users" SRVR_DATABASE_ERROR).
Proof.
  intros Hvalid Hbind.
  destruct (validateAdminUsersList_inl _ _ Hvalid)
    as (Hpage & Hlimit & Hstatus & Hrole).
  assert (Hp : 1 <= pageOf query').
  { unfold pageOf, parseIntOr.
    destruct Hpage as [-> | (n & -> & Hn)]; [unfold parseInt; lia |].
    destruct (parseInt (JNum n)) as [d |] eqn:Hread; [| lia].
    pose proof (parseInt_number_pos n d Hn Hread).
    destruct (Z.eqb_spec d 0); lia. }
  assert (Hl : 1 <= limitOf query' <= 100
               /\ (query_limit query' = JUndefined -> limitOf query' = 20)
               /\ (forall n, query_limit query' = JNum n ->
                   limitOf query' = n)).
  { unfold limitOf, parseIntOr.
    destruct Hlimit as [-> | (n & -> & Hn)].
    - unfold parseInt. repeat split; try lia. intros n Hn. discriminate Hn.
    - rewrite parseInt_number_small by lia.
      destruct (Z.eqb_spec n 0); [lia |].
      repeat split; try lia; [intros H; discriminate H |].
      intros n' [= <-]. lia. }
  destruct Hl as (Hrange & Hdefault & Hasked).
  assert (Hroles : reportedRole query' = roleFilter query').
  { unfold reportedRole, roleFilter.
    destruct Hrole as [-> | (n & -> & Hn)]; [reflexivity |].
    rewrite parseInt_number_small by lia. cbn [truthy].
    destruct (n =? 0); simpl; [reflexivity |].
    destruct (Z.geb_spec n 1); destruct (Z.leb_spec n 5); simpl;
      reflexivity || lia. }
  assert (Hstatus' :
    exists statusFilter,
      (if truthy (query_status query')
       then match bindText (query_status query') with
            | Some s => Some (Some s)
            | None => None
            end
       else Some None) = Some statusFilter).
  { destruct Hstatus as [-> | (s & -> & Hs)]; simpl;
      [eexists; reflexivity |].
    rewrite Hbind. destruct (String.eqb s ""); eexists; reflexivity. }
  destruct Hstatus' as [statusFilter Hstatus'].
  assert (Hoffset : 0 <= offsetOf query')
    by (apply offsetOf_nonneg; [lia | exact Hp]).
  split; [exact Hp |]. split; [exact Hdefault |]. split; [exact Hasked |].
  split; [exact Hroles |].
  unfold getAllUsers. rewrite Hstatus'.
  destruct (Z.ltb_spec (limitOf query') 0); [lia |].
  destruct (Z.ltb_spec (offsetOf query') 0); [lia |].
  split; intros Hfit.
  - destruct (Z.ltb_spec maxBigint (offsetOf query')); [lia |].
    cbn [orb]. eexists. eexists. split; [reflexivity |].
    split; reflexivity.
  - destruct (Z.ltb_spec maxBigint (offsetOf query')); [| lia].
    reflexivity.
Qed.

End ListingProperties.

Lemma sortNewestFirst_permutation rows :
  Permutation (sortNewestFirst rows) rows.
Proof.
  assert (Hinsert : forall r sorted,
            Permutation (insertNewest r sorted) (r :: sorted)).
  { intros r sorted. induction sorted as [| h rest IH]; simpl;
      [reflexivity |].
    destruct (created_at h <=? created_at r); [reflexivity |].
    rewrite IH. apply perm_swap. }
  induction rows as [| r rows IH]; simpl; [constructor |].
  rewrite Hinsert. constructor. exact IH.
Qed.

Lemma sortNewestFirst_sorted rows :
  StronglySorted (fun a b => created_at b <= created_at a)
                 (sortNewestFirst rows).
Proof.
  assert (Hinsert : forall r sorted,
            StronglySorted (fun a b => created_at b <= created_at a) sorted ->
            StronglySorted (fun a b => created_at b <= created_at a)
                           (insertNewest r sorted)).
  { intros r sorted Hsorted.
    induction Hsorted as [| h rest Hrest IH Hall]; simpl;
      [repeat constructor |].
    destruct (Z.leb_spec (created_at h) (created_at r)) as [Hle | Hgt].
    - constructor; [constructor; assumption |].
      constructor; [exact Hle |].
      rewrite Forall_forall in *. intros x Hx.
      specialize (Hall x Hx). simpl in Hall. lia.
    - constructor; [exact IH |].
      rewrite Forall_forall in *. intros x Hx.
      assert (Hperm : Permutation (insertNewest r rest) (r :: rest)).
      { clear. induction rest as [| h' rest' IH']; simpl; [reflexivity |].
        destruct (created_at h' <=? created_at r); [reflexivity |].
        rewrite IH'. apply perm_swap. }
      apply (Permutation_in _ Hperm) in Hx.
      destruct Hx as [<- | Hx]; [lia | exact (Hall x Hx)]. }
  induction rows as [| r rows IH]; simpl; [constructor |].
  apply Hinsert. exact IH.
Qed.

(** X20 at work: the first page of two users of the sample store. *)
Lemma X20_witness :
  exists data message,
    getAllUsers acceptText (fun _ => "role") sortNewestFirst
      {| query_page := JUndefined; query_limit := JStr "2";
         query_status := JUndefined; query_role := JUndefined |}
      samplePool
    = sentSuccess data message
    /\ 1 <= pg_page (pagination data)
    /\ 1 <= pg_limit (pagination data) <= 100
    /\ (length (users data) <= Z.to_nat (pg_limit (pagination data)))%nat.
Proof.
  eexists. eexists. split; [reflexivity |].
  pose proof (X20_listing_page acceptText (fun _ => "role") sortNewestFirst
                sortNewestFirst_permutation sortNewestFirst_sorted
                {| query_page := JUndefined; query_limit := JStr "2";
                   query_status := JUndefined; query_role := JUndefined |}
                samplePool _ _ eq_refl) as (Hpage & Hlimit & Hlength & _).
  exact (conj Hpage (conj Hlimit Hlength)).
Defined.

(** X21 at work: a limit of 500 is cut to 100. *)
Lemma X21_witness :
  limitOf {| query_page := JUndefined; query_limit := JStr "500";
             query_status := JUndefined; query_role := JUndefined |}
  = 100.
Proof.
  apply (proj1 (proj2 (proj2 (proj2
           (X21_listing_limit acceptText (fun _ => "role") sortNewestFirst
              {| query_page := JUndefined; query_limit := JStr "500";
                 query_status := JUndefined; query_role := JUndefined |}))))
           500 eq_refl).
  lia.
Defined.

(** X22 at work: the role 9 is reported and not applied. *)
Lemma X22_witness :
  exists data message,
    getAllUsers acceptText (fun _ => "role") sortNewestFirst
      {| query_page := JUndefined; query_limit := JUndefined;
         query_status := JUndefined; query_role := JStr "9" |}
      samplePool
    = sentSuccess data message
    /\ exists f, filters data = Some f /\ af_role f = Some (9, "role").
Proof.
  eexists. eexists. split; [reflexivity |].
  apply (proj1 (X22_listing_role_out_of_range
                  acceptText (fun _ => "role") sortNewestFirst
                  {| query_page := JUndefined; query_limit := JUndefined;
                     query_status := JUndefined; query_role := JStr "9" |}
                  samplePool 9 _ _ eq_refl eq_refl ltac:(lia) eq_refl)).
Defined.

(** X23 at work: the second page of three suspended users. *)
Lemma X23_witness :
  exists data message,
    getAllUsers acceptText (fun _ => "role") sortNewestFirst
      {| query_page := JNum 2; query_limit := JNum 3;
         query_status := JStr "suspended"; query_role := JUndefined |}
      (PoolUp sampleDb)
    = sentSuccess data message
    /\ pg_page (pagination data)
       = pageOf {| query_page := JNum 2; query_limit := JNum 3;
                   query_status := JStr "suspended";
                   query_role := JUndefined |}
    /\ pg_limit (pagination data)
       = limitOf {| query_page := JNum 2; query_limit := JNum 3;
                    query_status := JStr "suspended";
                    query_role := JUndefined |}.
Proof.
  apply (proj1 (proj2 (proj2 (proj2 (proj2
           (X23_validated_listing_succeeds
              acceptText (fun _ => "role") sortNewestFirst
              {| query_page := JStr "2"; query_limit := JStr "3";
                 query_status := JStr "suspended";
                 query_role := JUndefined |}
              _ sampleDb eq_refl (fun s => eq_refl))))))).
  vm_compute. discriminate.
Defined.
